(** * fin-analyst-agent: the scoring and ranking engine

    A shallow embedding of [financial_analyzer.py] (class [FinancialAnalyzer])
    and of the ratio computation of [data_collector.py]
    ([YahooFinanceCollector.get_fundamental_data]).

    Numbers.  Python floats are idealised as exact rationals ([Q]); the
    non-finite results numpy produces on a division by zero are kept apart
    (type [fnum]).  [None] is [option]'s [None], pandas' NaN cell is [CNaN].
    Module [Float64] embeds [calculate_revenue_growth] once more on IEEE 754
    doubles, where the value it returns is stated to the last bit. *)

From Stdlib Require Import PrimFloat SpecFloat FloatOps.
From Stdlib Require Import QArith Qround ZArith List Bool Lia Lqa.
From Stdlib Require Import Sorting.Permutation Sorting.Sorted.
From stdpp Require Import gmap strings list fin_maps pretty.
Import ListNotations.

Local Open Scope Q_scope.

(** ** Python primitives used by the source *)
Module Py.

(** Truthiness of a number: [if x] holds unless [x == 0]. *)
Definition truthy (x : Q) : bool := negb (Qeq_bool x 0).

(** Truthiness of an optional number: [None] and [0] are both falsy. *)
Definition truthy_opt (x : option Q) : bool :=
  match x with
  | Some q => truthy q
  | None => false
  end.

Definition Qlt_bool (x y : Q) : bool := negb (Qle_bool y x).

(** Nearest integer, ties to the even one (what [round] does). *)
Definition round_half_even (x : Q) : Z :=
  let f := Qfloor x in
  match Qcompare (x - inject_Z f) (1 # 2) with
  | Lt => f
  | Gt => (f + 1)%Z
  | Eq => if Z.even f then f else (f + 1)%Z
  end.

(** [round(x, 2)] on an exact number. *)
Definition round2 (x : Q) : Q :=
  Qred (inject_Z (round_half_even (x * 100)) / 100).

(** Exceptions the modelled code can meet. *)
Inductive exn := KeyError | TypeError | IndexError.

(** A computation either returns or raises. *)
Inductive res (A : Type) :=
| Ok (a : A)
| Raise (e : exn).
Arguments Ok {A} a.
Arguments Raise {A} e.

Definition bind {A B} (m : res A) (k : A -> res B) : res B :=
  match m with
  | Ok a => k a
  | Raise e => Raise e
  end.

(** [try: body except Exception: handler] *)
Definition try_except {A} (body : res A) (handler : exn -> res A) : res A :=
  match body with
  | Ok a => Ok a
  | Raise e => handler e
  end.

Fixpoint mapM {A B} (f : A -> res B) (l : list A) : res (list B) :=
  match l with
  | [] => Ok []
  | a :: l' =>
      bind (f a) (fun b => bind (mapM f l') (fun bs => Ok (b :: bs)))
  end.

(** [sorted(l, key=..., reverse=True)]: the builtin sort is stable, and with
    [reverse=True] elements with equal keys still keep their input order.
    [ltb a b] is [key(a) < key(b)], the only comparison the sort uses.
    Each element is placed in front of the first one that it is not below. *)
Section Sorted.
Context {A : Type} (ltb : A -> A -> bool).

Fixpoint insert_desc (x : A) (l : list A) : list A :=
  match l with
  | [] => [x]
  | y :: l' => if ltb x y then y :: insert_desc x l' else x :: y :: l'
  end.

Definition sorted_desc (l : list A) : list A :=
  fold_right insert_desc [] l.

(** [a] may stand before [b] in a descending list: [key(a) < key(b)] fails. *)
Definition not_below (a b : A) : Prop := ltb a b = false.
End Sorted.

End Py.

Notation "'let*' x ':=' m 'in' k" := (Py.bind m (fun x => k))
  (at level 10, x name, m at level 100, k at level 200).

(** ** Data model *)

(** One fundamental record, as [get_fundamental_data] builds it. *)
Record FundamentalRecord := {
  quarter : string;
  year : Z;
  revenue : option Q;
  operating_income : option Q;
  net_income : option Q;
  total_assets : option Q;
  total_debt : option Q;
  shareholders_equity : option Q;
  cash_and_equivalents : option Q;
  ebit_margin : option Q;
  roe : option Q;
  debt_to_equity : option Q
}.

(** A number that may have left the finite range (numpy's inf and nan). *)
Inductive fnum :=
| Fin (q : Q)
| NonFinite.

(** The dictionary returned by [analyze_ebit_margin_trend]. *)
Record EbitAnalysis := { avg_margin : option Q }.

(** The dictionary returned by [analyze_technical_indicators]. *)
Record TechnicalAnalysis := {
  ma_20 : option Q;
  ma_50 : option Q;
  ma_200 : option Q;
  price_vs_ma20 : option fnum;
  price_vs_ma50 : option fnum;
  price_vs_ma200 : option fnum;
  ma50_rising : bool
}.

(** ** data_collector.py *)
Module Collector.

(** [a / b] on two present numbers. *)
Definition div_opt (a b : option Q) : option Q :=
  match a, b with
  | Some x, Some y => Some (x / y)
  | _, _ => None
  end.

(** [a and b] as a condition: both operands are truthy. *)
Definition both (a b : option Q) : bool := Py.truthy_opt a && Py.truthy_opt b.

(** The record appended for one quarter, from the extracted line items. *)
Definition build_record (quarter_str : string) (year : Z)
    (revenue operating_income net_income total_assets total_debt
       shareholders_equity cash_and_equivalents : option Q) : FundamentalRecord :=
  (* Calculate ratios *)
  let ebit_margin :=
    if both revenue operating_income
    then option_map (fun r => r * 100) (div_opt operating_income revenue) else None in
  let roe :=
    if both net_income shareholders_equity
    then option_map (fun r => r * 100) (div_opt net_income shareholders_equity) else None in
  let debt_to_equity :=
    if both total_debt shareholders_equity
    then div_opt total_debt shareholders_equity else None in
  {| quarter := quarter_str;
     year := year;
     revenue := revenue;
     operating_income := operating_income;
     net_income := net_income;
     total_assets := total_assets;
     total_debt := total_debt;
     shareholders_equity := shareholders_equity;
     cash_and_equivalents := cash_and_equivalents;
     ebit_margin := ebit_margin;
     roe := roe;
     debt_to_equity := debt_to_equity |}.

End Collector.

(** ** financial_analyzer.py *)
Module Analyzer.

(** *** calculate_ranking_score *)
Definition calculate_ranking_score (revenue_growth : option Q)
    (ebit_analysis : EbitAnalysis) (technical_analysis : TechnicalAnalysis) : Q :=
  let score := 0 in
  let score :=
    match revenue_growth with
    | Some g =>
        if Qle_bool 10 g then score + 40
        else if Qle_bool 5 g then score + 30
        else if Qle_bool 0 g then score + 20
        else score + 0
    | None => score
    end in
  let score :=
    match avg_margin ebit_analysis with
    | Some m =>
        if Qle_bool 25 m then score + 40
        else if Qle_bool 20 m then score + 35
        else if Qle_bool 15 m then score + 30
        else if Qle_bool 10 m then score + 20
        else if Qle_bool 5 m then score + 10
        else score + 0
    | None => score
    end in
  let score := if ma50_rising technical_analysis then score + 20 else score in
  (* round(score, 1): the score is an integer here, which round returns as is *)
  score.

(** The three components, as the contract's table words them. *)
Definition revenue_growth_points (g : option Q) : Q :=
  match g with
  | None => 0
  | Some g =>
      if Qle_bool 10 g then 40
      else if Qle_bool 5 g && Py.Qlt_bool g 10 then 30
      else if Qle_bool 0 g && Py.Qlt_bool g 5 then 20
      else 0
  end.

Definition ebit_margin_points (m : option Q) : Q :=
  match m with
  | None => 0
  | Some m =>
      if Qle_bool 25 m then 40
      else if Qle_bool 20 m && Py.Qlt_bool m 25 then 35
      else if Qle_bool 15 m && Py.Qlt_bool m 20 then 30
      else if Qle_bool 10 m && Py.Qlt_bool m 15 then 20
      else if Qle_bool 5 m && Py.Qlt_bool m 10 then 10
      else 0
  end.

Definition ma50_points (rising : bool) : Q := if rising then 20 else 0.

(** *** calculate_revenue_growth *)

(** [key(a) < key(b)] for the key [(x['year'], x['quarter'])]: tuples compare
    lexicographically, strings by code point. *)
Definition period_ltb (a b : FundamentalRecord) : bool :=
  (year a <? year b)%Z || ((year a =? year b)%Z && String.ltb (quarter a) (quarter b)).

(** The records of the period [(y, q)]. *)
Definition same_period (y : Z) (q : string) (r : FundamentalRecord) : bool :=
  (year r =? y)%Z && String.eqb (quarter r) q.

(** The [try] block only subtracts, divides by a positive number and rounds,
    so its [except] branch is never entered on numbers.  The growth is
    computed here on exact rationals: the double the code returns can differ
    from it in the last places (and, next to a rounding tie, by 0.01), and is
    infinite where the double arithmetic overflows. *)
Definition calculate_revenue_growth (fundamental_data : list FundamentalRecord) : option Q :=
  if (length fundamental_data <? 2)%nat then None
  else
    let sorted_data := Py.sorted_desc period_ltb fundamental_data in
    let revenues := omap revenue sorted_data in
    if (length revenues <? 2)%nat then None
    else
      match revenues with
      | current_quarter :: previous_quarter :: _ =>
          if Qle_bool previous_quarter 0 then None
          else
            let qoq_growth := ((current_quarter - previous_quarter) / previous_quarter) * 100 in
            Some (Py.round2 qoq_growth)
      | _ => None
      end.

(** *** analyze_ebit_margin_trend *)

(** [np.mean] on exact rationals; the double the code returns depends on the
    order of summation in its last places. *)
Definition mean (l : list Q) : Q :=
  fold_right Qplus 0 l / inject_Z (Z.of_nat (length l)).

Definition analyze_ebit_margin_trend (fundamental_data : list FundamentalRecord) : EbitAnalysis :=
  match fundamental_data with
  | [] => {| avg_margin := None |}
  | _ =>
      let margins := omap ebit_margin fundamental_data in
      match margins with
      | [] => {| avg_margin := None |}
      | _ => {| avg_margin := Some (Py.round2 (mean margins)) |}
      end
  end.

(** *** analyze_technical_indicators *)

(** A cell of the price frame: a number or NaN. *)
Inductive cell :=
| CNum (q : Q)
| CNaN.

(** A pandas frame: the column labels and the rows, a cell per label. *)
Record DataFrame := {
  columns : list string;
  rows : list (list cell)
}.

Definition len (df : DataFrame) : nat := length (rows df).

(** [df.empty]: no row or no column. *)
Definition empty (df : DataFrame) : bool :=
  (len df =? 0)%nat || (length (columns df) =? 0)%nat.

(** [df.iloc[-k]] for k >= 1: the k-th row from the end, with its labels. *)
Definition iloc_neg (df : DataFrame) (k : nat) : Py.res (list string * list cell) :=
  if (k <=? len df)%nat then
    match nth_error (rows df) (len df - k) with
    | Some r => Py.Ok (columns df, r)
    | None => Py.Raise Py.IndexError
    end
  else Py.Raise Py.IndexError.

(** [series[name]]: the cell under the first label equal to [name]. *)
Fixpoint series_get (labels : list string) (vals : list cell) (name : string) : Py.res cell :=
  match labels, vals with
  | c :: cs, v :: vs => if String.eqb c name then Py.Ok v else series_get cs vs name
  | _, _ => Py.Raise Py.KeyError
  end.

Definition getitem (s : list string * list cell) (name : string) : Py.res cell :=
  series_get (fst s) (snd s) name.

Definition notna (c : cell) : bool :=
  match c with
  | CNum _ => true
  | CNaN => false
  end.

(** [(current_price - ma) / ma * 100] on numpy floats: a zero divisor gives
    inf or nan (with a warning), not an exception. *)
Definition pct_dev (current_price : Q) (ma : cell) : fnum :=
  match ma with
  | CNum m => if Qeq_bool m 0 then NonFinite else Fin ((current_price - m) / m * 100)
  | CNaN => NonFinite
  end.

(** [a > b] on cells: false as soon as one side is NaN. *)
Definition cell_gt (a b : cell) : bool :=
  match a, b with
  | CNum x, CNum y => Py.Qlt_bool y x
  | _, _ => false
  end.

(** [round(ma, 2) if pd.notna(ma) else None] *)
Definition round_cell (ma : cell) : option Q :=
  match ma with
  | CNum m => Some (Py.round2 m)
  | CNaN => None
  end.

Definition truthy_fnum (x : fnum) : bool :=
  match x with
  | Fin q => Py.truthy q
  | NonFinite => true
  end.

Definition round_fnum (x : fnum) : fnum :=
  match x with
  | Fin q => Fin (Py.round2 q)
  | NonFinite => NonFinite
  end.

(** [round(p, 2) if p else None]: [None] and [0.0] are both falsy. *)
Definition round_if_truthy (p : option fnum) : option fnum :=
  match p with
  | Some x => if truthy_fnum x then Some (round_fnum x) else None
  | None => None
  end.

(** The dictionary returned on the early exit and in the [except] branch. *)
Definition degraded : TechnicalAnalysis :=
  {| ma_20 := None; ma_50 := None; ma_200 := None;
     price_vs_ma20 := None; price_vs_ma50 := None; price_vs_ma200 := None;
     ma50_rising := false |}.

(** The body of the [try] block. *)
Definition technical_body (technical_data : DataFrame) (current_price : Q)
    : Py.res TechnicalAnalysis :=
  let* latest_data := iloc_neg technical_data 1 in
  let* ma_20 := getitem latest_data "MA_20" in
  let* ma_50 := getitem latest_data "MA_50" in
  let* ma_200 := getitem latest_data "MA_200" in
  let price_vs_ma20 := if notna ma_20 then Some (pct_dev current_price ma_20) else None in
  let price_vs_ma50 := if notna ma_50 then Some (pct_dev current_price ma_50) else None in
  let price_vs_ma200 := if notna ma_200 then Some (pct_dev current_price ma_200) else None in
  let* ma50_rising :=
    if (10 <=? len technical_data)%nat && notna ma_50 then
      let* row10 := iloc_neg technical_data 10 in
      let* ma50_10_days_ago := getitem row10 "MA_50" in
      if notna ma50_10_days_ago && cell_gt ma_50 ma50_10_days_ago
      then Py.Ok true else Py.Ok false
    else Py.Ok false in
  Py.Ok {| ma_20 := round_cell ma_20;
           ma_50 := round_cell ma_50;
           ma_200 := round_cell ma_200;
           price_vs_ma20 := round_if_truthy price_vs_ma20;
           price_vs_ma50 := round_if_truthy price_vs_ma50;
           price_vs_ma200 := round_if_truthy price_vs_ma200;
           ma50_rising := ma50_rising |}.

Definition analyze_technical_indicators (technical_data : DataFrame)
    (current_price : option Q) : Py.res TechnicalAnalysis :=
  if empty technical_data then Py.Ok degraded
  else
    match current_price with
    | None => Py.Ok degraded
    | Some price =>
        Py.try_except (technical_body technical_data price)
                      (fun _ => Py.Ok degraded)
    end.

(** The cell under [name] in the k-th row from the end, when there is one. *)
Definition cell_from_end (df : DataFrame) (k : nat) (name : string) : option cell :=
  match iloc_neg df k with
  | Py.Ok s =>
      match getitem s name with
      | Py.Ok c => Some c
      | Py.Raise _ => None
      end
  | Py.Raise _ => None
  end.

(** The number in a cell; a missing cell and NaN hold none. *)
Definition number (c : option cell) : option Q :=
  match c with
  | Some (CNum q) => Some q
  | _ => None
  end.

Definition is_ok {A} (r : Py.res A) : bool :=
  match r with
  | Py.Ok _ => true
  | Py.Raise _ => false
  end.

(** Every row carries the three moving-average columns, as the frames of
    [get_daily_price_data] do. *)
Definition has_ma_columns (df : DataFrame) : bool :=
  forallb (fun r => is_ok (series_get (columns df) r "MA_20")
                    && is_ok (series_get (columns df) r "MA_50")
                    && is_ok (series_get (columns df) r "MA_200"))
          (rows df).

(** *** analyze_stock *)

(** The recommendation ladder of [analyze_stock]. *)
Definition recommend (ranking_score : Q) : string :=
  if Qle_bool 80 ranking_score then "STRONG BUY"
  else if Qle_bool 60 ranking_score then "BUY"
  else if Qle_bool 40 ranking_score then "HOLD"
  else "SELL".

Record AnalysisResult := {
  symbol : string;
  revenue_growth_4q : option Q;
  avg_ebit_margin : option Q;
  current_price : option Q;
  res_ma_20 : option Q;
  res_ma_50 : option Q;
  res_ma_200 : option Q;
  res_price_vs_ma20 : option fnum;
  res_price_vs_ma50 : option fnum;
  res_price_vs_ma200 : option fnum;
  res_ma50_rising : bool;
  ebit_trend_details : EbitAnalysis;
  technical_details : TechnicalAnalysis;
  ranking_score : Q;
  recommendation : string
}.

Definition analyze_stock (symbol : string) (fundamental_data : list FundamentalRecord)
    (technical_data : DataFrame) (current_price : option Q) : Py.res AnalysisResult :=
  let revenue_growth := calculate_revenue_growth fundamental_data in
  let ebit_analysis := analyze_ebit_margin_trend fundamental_data in
  let* technical_analysis := analyze_technical_indicators technical_data current_price in
  let ranking_score := calculate_ranking_score revenue_growth ebit_analysis technical_analysis in
  let recommendation := recommend ranking_score in
  Py.Ok {| symbol := symbol;
           revenue_growth_4q := revenue_growth;
           avg_ebit_margin := avg_margin ebit_analysis;
           current_price := current_price;
           res_ma_20 := ma_20 technical_analysis;
           res_ma_50 := ma_50 technical_analysis;
           res_ma_200 := ma_200 technical_analysis;
           res_price_vs_ma20 := price_vs_ma20 technical_analysis;
           res_price_vs_ma50 := price_vs_ma50 technical_analysis;
           res_price_vs_ma200 := price_vs_ma200 technical_analysis;
           res_ma50_rising := ma50_rising technical_analysis;
           ebit_trend_details := ebit_analysis;
           technical_details := technical_analysis;
           ranking_score := ranking_score;
           recommendation := recommendation |}.

(** *** rank_stocks

    The analysis results are dictionaries that the function updates in place,
    so they live in a store of objects and the lists hold their addresses. *)
Inductive value :=
| VNone
| VBool (b : bool)
| VNum (q : Q)
| VStr (s : string).

Abbreviation loc := nat (only parsing).
Abbreviation store := (gmap nat (gmap string value)) (only parsing).

(** [obj[k]] for the dictionary at address [l]. *)
Definition dict_get (h : store) (l : loc) (k : string) : Py.res value :=
  match h !! l with
  | Some d =>
      match d !! k with
      | Some v => Py.Ok v
      | None => Py.Raise Py.KeyError
      end
  | None => Py.Raise Py.KeyError
  end.

(** The sort key [x['ranking_score']], a number. *)
Definition score_key (h : store) (l : loc) : Py.res Q :=
  let* v := dict_get h l "ranking_score" in
  match v with
  | VNum q => Py.Ok q
  | _ => Py.Raise Py.TypeError
  end.

Definition keyed_ltb (a b : Q * loc) : bool := Py.Qlt_bool (fst a) (fst b).

(** [for i, stock in enumerate(ranked_stocks): stock['rank'] = i + 1],
    entered with [i] as the index of the head of [ranked]. *)
Fixpoint assign_ranks (h : store) (ranked : list loc) (i : nat) : store :=
  match ranked with
  | [] => h
  | stock :: rest =>
      let h' := alter (fun d => <["rank" := VNum (inject_Z (Z.of_nat i + 1))]> d) stock h in
      assign_ranks h' rest (S i)
  end.

(** The ranking score and the rank recorded in the dictionary at [l]. *)
Definition score_of (h : store) (l : loc) : option Q :=
  match score_key h l with
  | Py.Ok q => Some q
  | Py.Raise _ => None
  end.

Definition rank_of (h : store) (l : loc) : option value :=
  match h !! l with
  | Some d => d !! "rank"
  | None => None
  end.

(** The value stored as the rank of the element at index [i]. *)
Definition rank_value (i : nat) : value := VNum (inject_Z (Z.of_nat i + 1)).

(** The dictionary at [l] carries the score [s]. *)
Definition same_score (h : store) (s : Q) (l : loc) : bool :=
  match score_of h l with
  | Some q => Qeq_bool q s
  | None => false
  end.

(** The sort computes every key once, then orders the objects by key. *)
Definition rank_stocks (h : store) (analysis_results : list loc)
    : Py.res (store * list loc) :=
  let* keyed := Py.mapM (fun l => let* k := score_key h l in Py.Ok (k, l)) analysis_results in
  let ranked_stocks := map snd (Py.sorted_desc keyed_ltb keyed) in
  Py.Ok (assign_ranks h ranked_stocks 0, ranked_stocks).

End Analyzer.

(** ** data_collector.py: statements and price history

    What the provider hands over is an input here: the two quarterly
    statements and the price history are frames given to the functions. *)
Module Yahoo.
Import Analyzer.

(** One column of a statement: the line items by label (labels are distinct
    within a statement), NaN where the provider has no figure. *)
Abbreviation Series := (gmap string cell) (only parsing).

(** The shape shared by the seven [_extract_*] helpers: the first key that is
    in the index with a value that is not NaN. *)
Fixpoint extract_first (keys : list string) (data : Series) : option Q :=
  match keys with
  | [] => None
  | key :: rest =>
      match data !! key with
      | Some (CNum q) => Some q
      | _ => extract_first rest data
      end
  end.

Definition revenue_keys : list string :=
  ["Total Revenue"; "Revenue"; "Net Sales"; "Total Net Sales"].
Definition ebit_keys : list string :=
  ["Operating Income"; "EBIT"; "Operating Revenue"; "Income From Operations"].
Definition net_income_keys : list string :=
  ["Net Income"; "Net Income Common Stockholders"; "Net Income Continuing Operations"].
Definition assets_keys : list string := ["Total Assets"; "Total Asset"].
Definition debt_keys : list string := ["Total Debt"; "Long Term Debt"; "Net Debt"].
Definition equity_keys : list string :=
  ["Stockholders Equity"; "Total Stockholder Equity"; "Shareholders Equity"].
Definition cash_keys : list string :=
  ["Cash And Cash Equivalents"; "Cash";
   "Cash Cash Equivalents And Short Term Investments"].

Definition _extract_revenue (year_data : Series) : option Q :=
  extract_first revenue_keys year_data.
Definition _extract_ebit (data : Series) : option Q := extract_first ebit_keys data.
Definition _extract_net_income (data : Series) : option Q :=
  extract_first net_income_keys data.
Definition _extract_total_assets (data : Series) : option Q :=
  extract_first assets_keys data.
Definition _extract_total_debt (data : Series) : option Q :=
  extract_first debt_keys data.
Definition _extract_shareholders_equity (data : Series) : option Q :=
  extract_first equity_keys data.
Definition _extract_cash (data : Series) : option Q := extract_first cash_keys data.

(** A column label of a quarterly statement: the date the quarter ends. *)
Record Timestamp := {
  ts_year : Z;
  ts_month : nat;
  ts_day : nat
}.

#[global] Instance Timestamp_eq_dec : EqDecision Timestamp.
Proof. solve_decision. Defined.

(** [quarter.quarter]: the quarter of the year the month falls in. *)
Definition ts_quarter (t : Timestamp) : nat := (ts_month t - 1) / 3 + 1.

Definition ts_eqb (a b : Timestamp) : bool :=
  (ts_year a =? ts_year b)%Z && (ts_month a =? ts_month b)%nat
  && (ts_day a =? ts_day b)%nat.

(** [f"Q{quarter.quarter}"] *)
Definition quarter_label (t : Timestamp) : string := "Q" +:+ pretty (ts_quarter t).

(** A statement: its columns in the provider's order, newest first. *)
Abbreviation Statement := (list (Timestamp * gmap string cell)) (only parsing).

(** [frame.empty]: no column, or no line item in any column. *)
Definition statement_empty (frame : Statement) : bool :=
  forallb (fun c => bool_decide (snd c = ∅)) frame.

(** The row labels of a statement: every column lists them all. *)
Definition statement_index (frame : Statement) : gset string :=
  union_list (map (fun c => dom (snd c)) frame).

(** What [frame[quarter]] selects: the column under that date as a Series,
    or, when the date labels several columns, a frame of those columns. *)
Inductive Selection :=
| OneColumn (data : gmap string cell)
| SeveralColumns (index : gset string).

(** [frame[quarter] if quarter in frame.columns else pd.Series()] *)
Definition statement_column (frame : Statement) (quarter : Timestamp) : Selection :=
  match List.filter (fun c => ts_eqb (fst c) quarter) frame with
  | [] => OneColumn ∅
  | [c] => OneColumn (snd c)
  | _ => SeveralColumns (statement_index frame)
  end.

(** A call [self._extract_x(data)] on what was selected.  On a Series it is
    the helper itself; on a frame of several columns the first key found in
    the index is then looked up among the column labels (the dates), which
    raises KeyError, and without such a key the loop ends with [None]. *)
Definition extract_selected (keys : list string) (extract : Series -> option Q)
    (data : Selection) : Py.res (option Q) :=
  match data with
  | OneColumn series => Py.Ok (extract series)
  | SeveralColumns index =>
      if existsb (fun key => bool_decide (key ∈ index)) keys
      then Py.Raise Py.KeyError
      else Py.Ok None
  end.

(** The body of the [try] block of [get_fundamental_data], from the two
    statements on. *)
Definition fundamental_body (quarterly_financials quarterly_balance_sheet : Statement)
    : Py.res (list FundamentalRecord) :=
  if statement_empty quarterly_financials then Py.Ok []
  else
    let quarters := firstn 4 (map fst quarterly_financials) in
    Py.mapM
      (fun quarter =>
         let income_data := statement_column quarterly_financials quarter in
         let balance_data := statement_column quarterly_balance_sheet quarter in
         let* revenue := extract_selected revenue_keys _extract_revenue income_data in
         let* operating_income := extract_selected ebit_keys _extract_ebit income_data in
         let* net_income :=
           extract_selected net_income_keys _extract_net_income income_data in
         let* total_assets :=
           extract_selected assets_keys _extract_total_assets balance_data in
         let* total_debt :=
           extract_selected debt_keys _extract_total_debt balance_data in
         let* shareholders_equity :=
           extract_selected equity_keys _extract_shareholders_equity balance_data in
         let* cash_and_equivalents :=
           extract_selected cash_keys _extract_cash balance_data in
         Py.Ok (Collector.build_record (quarter_label quarter) (ts_year quarter)
                  revenue operating_income net_income total_assets total_debt
                  shareholders_equity cash_and_equivalents))
      quarters.

(** [get_fundamental_data]: whatever the body raises, the caller gets [[]]. *)
Definition get_fundamental_data (quarterly_financials quarterly_balance_sheet : Statement)
    : list FundamentalRecord :=
  match fundamental_body quarterly_financials quarterly_balance_sheet with
  | Py.Ok fundamental_data => fundamental_data
  | Py.Raise _ => []
  end.

(** *** get_daily_price_data *)

(** [pd.DataFrame()] *)
Definition empty_frame : DataFrame := {| columns := []; rows := [] |}.

Definition has_column (df : DataFrame) (name : string) : bool :=
  existsb (String.eqb name) (columns df).

(** [df[name]]: the cells of one column, top to bottom. *)
Definition column (df : DataFrame) (name : string) : Py.res (list cell) :=
  if has_column df name
  then Py.mapM (fun r => series_get (columns df) r name) (rows df)
  else Py.Raise Py.KeyError.

Definition cell_number (c : cell) : option Q :=
  match c with
  | CNum q => Some q
  | CNaN => None
  end.

(** The value [rolling(window=w).mean()] gives at the end of [seen]: the mean
    of the last [w] cells once there are [w] of them and none is NaN. *)
Definition window_mean (w : nat) (seen : list cell) : cell :=
  if (length seen <? w)%nat then CNaN
  else
    let window := skipn (length seen - w) seen in
    if forallb notna window then CNum (mean (omap cell_number window)) else CNaN.

(** The rolling means of [rest], the cells of [seen] having gone before. *)
Fixpoint rolling_from (w : nat) (seen rest : list cell) : list cell :=
  match rest with
  | [] => []
  | c :: rest' => window_mean w (seen ++ [c]) :: rolling_from w (seen ++ [c]) rest'
  end.

Definition rolling_mean (w : nat) (cells : list cell) : list cell :=
  rolling_from w [] cells.

(** One row after [df[name] = ...]: the cell under [name] is replaced, or added
    at the end when the frame has no such column. *)
Fixpoint set_cell (labels : list string) (r : list cell) (name : string) (v : cell)
    : list cell :=
  match labels, r with
  | c :: cs, x :: xs => if String.eqb c name then v :: xs else x :: set_cell cs xs name v
  | _, _ => r ++ [v]
  end.

(** [df[name] = vals] *)
Definition set_column (df : DataFrame) (name : string) (vals : list cell) : DataFrame :=
  {| columns := if has_column df name then columns df else columns df ++ [name];
     rows := zip_with (fun r v => set_cell (columns df) r name v) (rows df) vals |}.

(** The row has a value under [name] that is not NaN. *)
Definition row_notna (labels : list string) (name : string) (r : list cell) : bool :=
  match series_get labels r name with
  | Py.Ok c => notna c
  | Py.Raise _ => false
  end.

(** [df.dropna(subset=[name])] *)
Definition dropna (df : DataFrame) (name : string) : Py.res DataFrame :=
  if has_column df name
  then Py.Ok {| columns := columns df;
                rows := List.filter (row_notna (columns df) name) (rows df) |}
  else Py.Raise Py.KeyError.

(** [get_daily_price_data], from the price history [hist] on. *)
Definition get_daily_price_data (hist : DataFrame) : Py.res DataFrame :=
  Py.try_except
    (if empty hist then Py.Ok empty_frame
     else
       let* close := column hist "Close" in
       let hist := set_column hist "MA_20" (rolling_mean 20 close) in
       let* close := column hist "Close" in
       let hist := set_column hist "MA_50" (rolling_mean 50 close) in
       let* close := column hist "Close" in
       let hist := set_column hist "MA_200" (rolling_mean 200 close) in
       dropna hist "MA_200")
    (fun _ => Py.Ok empty_frame).

(** Every row has one cell per column. *)
Definition rectangular (df : DataFrame) : bool :=
  forallb (fun r => (length r =? length (columns df))%nat) (rows df).

(** The history does not come with moving-average columns of its own. *)
Definition fresh_ma_names (df : DataFrame) : bool :=
  negb (has_column df "MA_20") && negb (has_column df "MA_50")
  && negb (has_column df "MA_200").

(** The last [w] closing prices, when they are all there. *)
Definition trailing (w : nat) (close : list cell) : list Q :=
  omap cell_number (skipn (length close - w) close).

End Yahoo.

(** ** calculate_revenue_growth on doubles *)

(** The numbers of this module are the interpreter's: IEEE 754 binary64
    values ([float]).  Subtraction, division and multiplication round to the
    nearest double, ties to even, overflow to an infinity and never raise
    (a division raises only on a zero divisor, which the guard
    [previous_quarter <= 0] excludes). *)
Module Float64.

(** The rational [m * 2^e], the magnitude of a finite double. *)
Definition magnitude (m : positive) (e : Z) : Q :=
  match e with
  | Zneg k => Zpos m # (2 ^ k)
  | _ => inject_Z (Zpos m * 2 ^ e)
  end.

(** [round(x, 2)].  An infinity and a NaN round to themselves.  A finite [x]
    is written with two decimals, correctly rounded from its exact binary
    value with ties to the even digit, and the decimal [n / 100] so written
    is read back as the nearest double; a zero keeps the sign of [x]. *)
Definition round2 (x : float) : float :=
  match Prim2SF x with
  | S754_finite s m e =>
      match Py.round_half_even (magnitude m e * 100) with
      | Zpos n =>
          SF2Prim (SFdiv prec emax (S754_finite s n 0) (S754_finite false 100 0))
      | _ => SF2Prim (S754_zero s)
      end
  | _ => x
  end.

(** One fundamental record, as [get_fundamental_data] builds it. *)
Record FundamentalRecord := {
  quarter : string;
  year : Z;
  revenue : option float;
  operating_income : option float;
  net_income : option float;
  total_assets : option float;
  total_debt : option float;
  shareholders_equity : option float;
  cash_and_equivalents : option float;
  ebit_margin : option float;
  roe : option float;
  debt_to_equity : option float
}.

(** [key(a) < key(b)] for the key [(x['year'], x['quarter'])]: tuples compare
    lexicographically, strings by code point. *)
Definition period_ltb (a b : FundamentalRecord) : bool :=
  (year a <? year b)%Z || ((year a =? year b)%Z && String.ltb (quarter a) (quarter b)).

(** The records of the period [(y, q)]. *)
Definition same_period (y : Z) (q : string) (r : FundamentalRecord) : bool :=
  (year r =? y)%Z && String.eqb (quarter r) q.

(** [previous_quarter <= 0] is false on a NaN, which then reaches the
    arithmetic and comes back as a NaN.  Nothing in the [try] block raises on
    doubles, so its [except] branch is never entered. *)
Definition calculate_revenue_growth (fundamental_data : list FundamentalRecord) : option float :=
  if (length fundamental_data <? 2)%nat then None
  else
    let sorted_data := Py.sorted_desc period_ltb fundamental_data in
    let revenues := omap revenue sorted_data in
    if (length revenues <? 2)%nat then None
    else
      match revenues with
      | current_quarter :: previous_quarter :: _ =>
          if PrimFloat.leb previous_quarter 0 then None
          else
            let qoq_growth :=
              PrimFloat.mul
                (PrimFloat.div (PrimFloat.sub current_quarter previous_quarter)
                   previous_quarter)
                100 in
            Some (round2 qoq_growth)
      | _ => None
      end.

End Float64.

(** ** Sample inputs *)
Module Examples.

(** Ten trading days whose MA_50 climbs from 100 to 110. *)
Definition rising_frame : Analyzer.DataFrame :=
  {| Analyzer.columns := ["Close"; "MA_20"; "MA_50"; "MA_200"];
     Analyzer.rows :=
       let n := Analyzer.CNum in
       [n 104; n 101; n 100; n 95]
       :: repeat [n 108; n 104; n 105; n 96] 8
       ++ [[n 120; n 112; n 110; n 97]] |}.

(** Three analysis results in the order they were analysed; the first and
    the third share the score 70. *)
Definition batch : gmap nat (gmap string Analyzer.value) :=
  {[ 1%nat := {[ "symbol" := Analyzer.VStr "AAA";
                 "ranking_score" := Analyzer.VNum 70;
                 "recommendation" := Analyzer.VStr "BUY" ]};
     2%nat := {[ "symbol" := Analyzer.VStr "BBB";
                 "ranking_score" := Analyzer.VNum 90;
                 "recommendation" := Analyzer.VStr "STRONG BUY" ]};
     3%nat := {[ "symbol" := Analyzer.VStr "CCC";
                 "ranking_score" := Analyzer.VNum 70;
                 "recommendation" := Analyzer.VStr "BUY" ]} ]}.

(** Two results, the second of which has lost its score. *)
Definition unscored_batch : gmap nat (gmap string Analyzer.value) :=
  {[ 1%nat := {[ "symbol" := Analyzer.VStr "AAA";
                 "ranking_score" := Analyzer.VNum 70 ]};
     2%nat := {[ "symbol" := Analyzer.VStr "BBB" ]} ]}.

(** The income statement and the balance sheet of four quarters, newest
    first, as the provider lists them. *)
Definition quarter_end (y : Z) (m d : nat) : Yahoo.Timestamp :=
  {| Yahoo.ts_year := y; Yahoo.ts_month := m; Yahoo.ts_day := d |}.

Definition income_statement : list (Yahoo.Timestamp * gmap string Analyzer.cell) :=
  let n := Analyzer.CNum in
  [ (quarter_end 2024 6 30,
     {[ "Total Revenue" := n 110; "Operating Income" := n 22; "Net Income" := n 15 ]});
    (quarter_end 2024 3 31,
     {[ "Total Revenue" := n 100; "Operating Income" := n 18; "Net Income" := n 12 ]});
    (quarter_end 2023 12 31,
     {[ "Total Revenue" := Analyzer.CNaN; "Revenue" := n 95;
        "Operating Income" := n 19; "Net Income" := n 11 ]});
    (quarter_end 2023 9 30,
     {[ "Total Revenue" := n 90; "EBIT" := n (27 # 2); "Net Income" := n 9 ]});
    (quarter_end 2023 6 30,
     {[ "Total Revenue" := n 85; "Operating Income" := n 12 ]}) ].

Definition balance_sheet : list (Yahoo.Timestamp * gmap string Analyzer.cell) :=
  let n := Analyzer.CNum in
  [ (quarter_end 2024 6 30,
     {[ "Total Assets" := n 900; "Total Debt" := n 200; "Stockholders Equity" := n 400 ]});
    (quarter_end 2024 3 31,
     {[ "Total Assets" := n 880; "Total Debt" := n 210; "Stockholders Equity" := n 390 ]}) ].

(** An income statement in which the provider lists June 2024 twice. *)
Definition repeated_statement : list (Yahoo.Timestamp * gmap string Analyzer.cell) :=
  let n := Analyzer.CNum in
  [ (quarter_end 2024 6 30, {[ "Total Revenue" := n 110; "Operating Income" := n 22 ]});
    (quarter_end 2024 6 30, {[ "Total Revenue" := n 110; "Operating Income" := n 22 ]});
    (quarter_end 2024 3 31, {[ "Total Revenue" := n 100; "Operating Income" := n 18 ]}) ].

Definition quarters : list FundamentalRecord :=
  Yahoo.get_fundamental_data income_statement balance_sheet.

(** 210 trading days whose close climbs by one a day from 100. *)
Definition history : Analyzer.DataFrame :=
  {| Analyzer.columns := ["Open"; "Close"; "Volume"];
     Analyzer.rows :=
       map (fun i => [Analyzer.CNum (inject_Z (Z.of_nat i) + 99);
                      Analyzer.CNum (inject_Z (Z.of_nat i) + 100);
                      Analyzer.CNum 1000])
           (seq 0 210) |}.

(** The closing prices of [history]. *)
Definition history_close : list Analyzer.cell :=
  map (fun i => Analyzer.CNum (inject_Z (Z.of_nat i) + 100)) (seq 0 210).

(** A record of the period [(y, q)] that carries only a revenue. *)
Definition revenue_report (q : string) (y : Z) (r : option float) : Float64.FundamentalRecord :=
  {| Float64.quarter := q; Float64.year := y; Float64.revenue := r;
     Float64.operating_income := None; Float64.net_income := None;
     Float64.total_assets := None; Float64.total_debt := None;
     Float64.shareholders_equity := None; Float64.cash_and_equivalents := None;
     Float64.ebit_margin := None; Float64.roe := None;
     Float64.debt_to_equity := None |}.

(** Revenue went from 20000 to 21999, a growth of 9.995 per cent on paper;
    the records are given oldest first, with a quarter without revenue
    between them. *)
Definition near_tie : list Float64.FundamentalRecord :=
  [revenue_report "Q4" 2023 (Some 20000%float);
   revenue_report "Q1" 2024 None;
   revenue_report "Q2" 2024 (Some 21999%float)].

End Examples.

(** * Properties *)

Import Analyzer.

(** ** Comparisons on exact numbers *)

Lemma Qle_bool_true (a b : Q) : a <= b -> Qle_bool a b = true.
Proof. apply Qle_bool_iff. Qed.

Lemma Qle_bool_false (a b : Q) : b < a -> Qle_bool a b = false.
Proof.
  intros Hlt. destruct (Qle_bool a b) eqn:E; [|reflexivity].
  apply Qle_bool_iff in E. exfalso. exact (Qlt_not_le _ _ Hlt E).
Qed.

Lemma Qle_bool_false_lt (a b : Q) : Qle_bool a b = false -> b < a.
Proof.
  intros E. apply Qnot_le_lt. intros Hle.
  apply Qle_bool_iff in Hle. congruence.
Qed.

Lemma Qlt_bool_true (a b : Q) : Py.Qlt_bool a b = true <-> a < b.
Proof.
  unfold Py.Qlt_bool. split.
  - intros E. apply negb_true_iff in E. now apply Qle_bool_false_lt.
  - intros Hlt. apply negb_true_iff. now apply Qle_bool_false.
Qed.

Lemma Qlt_bool_false (a b : Q) : Py.Qlt_bool a b = false <-> b <= a.
Proof.
  unfold Py.Qlt_bool. rewrite negb_false_iff. apply Qle_bool_iff.
Qed.

(** Rewrites every threshold test whose outcome the context decides. *)
Ltac thresholds :=
  repeat match goal with
  | H : (?a <= ?b)%Q |- context [Qle_bool ?a ?b] => rewrite (Qle_bool_true a b H)
  | H : (?b < ?a)%Q |- context [Qle_bool ?a ?b] => rewrite (Qle_bool_false a b H)
  | H : (_ /\ _) |- _ => destruct H
  end.

(** Splits on every threshold test left in the goal. *)
Ltac split_thresholds :=
  repeat match goal with
  | |- context [Qle_bool ?a ?b] => destruct (Qle_bool a b) eqn:?
  end.

(** ** calculate_ranking_score *)

(** C1: the score is the sum of the revenue-growth, EBIT-margin and MA50
    components; an absent input contributes 0, and each bucket is closed on
    its lower bound. *)
Theorem calculate_ranking_score_components :
  forall (revenue_growth : option Q) (ebit_analysis : EbitAnalysis)
         (technical_analysis : TechnicalAnalysis),
    calculate_ranking_score revenue_growth ebit_analysis technical_analysis
    = revenue_growth_points revenue_growth
      + ebit_margin_points (avg_margin ebit_analysis)
      + ma50_points (ma50_rising technical_analysis)
    /\ revenue_growth_points None = 0
    /\ ebit_margin_points None = 0
    /\ ma50_points true = 20
    /\ ma50_points false = 0
    /\ (forall g : Q,
          (10 <= g -> revenue_growth_points (Some g) = 40)
          /\ (5 <= g /\ g < 10 -> revenue_growth_points (Some g) = 30)
          /\ (0 <= g /\ g < 5 -> revenue_growth_points (Some g) = 20)
          /\ (g < 0 -> revenue_growth_points (Some g) = 0))
    /\ (forall m : Q,
          (25 <= m -> ebit_margin_points (Some m) = 40)
          /\ (20 <= m /\ m < 25 -> ebit_margin_points (Some m) = 35)
          /\ (15 <= m /\ m < 20 -> ebit_margin_points (Some m) = 30)
          /\ (10 <= m /\ m < 15 -> ebit_margin_points (Some m) = 20)
          /\ (5 <= m /\ m < 10 -> ebit_margin_points (Some m) = 10)
          /\ (m < 5 -> ebit_margin_points (Some m) = 0)).
Proof.
  intros rg [am] ta. split; [|repeat split].
  - unfold calculate_ranking_score, revenue_growth_points, ebit_margin_points,
      ma50_points, Py.Qlt_bool; cbn [avg_margin].
    destruct rg as [g|], am as [m|], (ma50_rising ta);
      split_thresholds; reflexivity.
  - intros H. unfold revenue_growth_points. thresholds. reflexivity.
  - intros H. unfold revenue_growth_points, Py.Qlt_bool. thresholds. reflexivity.
  - intros H. unfold revenue_growth_points, Py.Qlt_bool. thresholds.
    assert (g < 10) by (eapply Qlt_trans; [eassumption|reflexivity]).
    thresholds. reflexivity.
  - intros H. unfold revenue_growth_points, Py.Qlt_bool.
    assert (g < 5) by (eapply Qlt_trans; [eassumption|reflexivity]).
    assert (g < 10) by (eapply Qlt_trans; [eassumption|reflexivity]).
    thresholds. reflexivity.
  - intros H. unfold ebit_margin_points. thresholds. reflexivity.
  - intros H. unfold ebit_margin_points, Py.Qlt_bool. thresholds. reflexivity.
  - intros H. unfold ebit_margin_points, Py.Qlt_bool. thresholds.
    assert (m < 25) by (eapply Qlt_trans; [eassumption|reflexivity]).
    thresholds. reflexivity.
  - intros H. unfold ebit_margin_points, Py.Qlt_bool. thresholds.
    assert (m < 20) by (eapply Qlt_trans; [eassumption|reflexivity]).
    assert (m < 25) by (eapply Qlt_trans; [eassumption|reflexivity]).
    thresholds. reflexivity.
  - intros H. unfold ebit_margin_points, Py.Qlt_bool. thresholds.
    assert (m < 15) by (eapply Qlt_trans; [eassumption|reflexivity]).
    assert (m < 20) by (eapply Qlt_trans; [eassumption|reflexivity]).
    assert (m < 25) by (eapply Qlt_trans; [eassumption|reflexivity]).
    thresholds. reflexivity.
  - intros H. unfold ebit_margin_points, Py.Qlt_bool.
    assert (m < 10) by (eapply Qlt_trans; [eassumption|reflexivity]).
    assert (m < 15) by (eapply Qlt_trans; [eassumption|reflexivity]).
    assert (m < 20) by (eapply Qlt_trans; [eassumption|reflexivity]).
    assert (m < 25) by (eapply Qlt_trans; [eassumption|reflexivity]).
    thresholds. reflexivity.
Qed.

(** C2: the score lies in [0, 100] for all inputs, and is exactly 100 when
    growth >= 10, margin >= 25 and ma50_rising holds. *)
Theorem calculate_ranking_score_bounds :
  forall (revenue_growth : option Q) (ebit_analysis : EbitAnalysis)
         (technical_analysis : TechnicalAnalysis),
    (0 <= calculate_ranking_score revenue_growth ebit_analysis technical_analysis
     /\ calculate_ranking_score revenue_growth ebit_analysis technical_analysis <= 100)
    /\ (forall g m : Q,
          revenue_growth = Some g -> avg_margin ebit_analysis = Some m ->
          10 <= g -> 25 <= m -> ma50_rising technical_analysis = true ->
          calculate_ranking_score revenue_growth ebit_analysis technical_analysis = 100).
Proof.
  intros rg [am] ta. split.
  - unfold calculate_ranking_score; cbn [avg_margin].
    destruct rg as [g|], am as [m|], (ma50_rising ta);
      split_thresholds; split; apply Qle_bool_iff; reflexivity.
  - intros g m -> Hm Hg Hm' Hr. cbn [avg_margin] in Hm. subst am.
    unfold calculate_ranking_score; cbn [avg_margin].
    rewrite Hr. thresholds. reflexivity.
Qed.

(** The top score, reached at growth 12.5, margin 31 and a rising MA50. *)
Lemma calculate_ranking_score_bounds_witness :
  calculate_ranking_score (Some (25 # 2)) {| avg_margin := Some 31 |}
    {| ma_20 := None; ma_50 := None; ma_200 := None;
       price_vs_ma20 := None; price_vs_ma50 := None; price_vs_ma200 := None;
       ma50_rising := true |} = 100.
Proof.
  refine (proj2 (calculate_ranking_score_bounds _ _ _) (25 # 2) 31 _ _ _ _ _);
    first [reflexivity | apply Qle_bool_iff; reflexivity].
Defined.

(** ** get_fundamental_data: the derived ratios *)

(** With both line items present and nonzero the margin is the quotient. *)
Lemma ebit_margin_nonzero_items :
  forall q y (rev oi : Q) ni ta td se cash,
    ~ rev == 0 -> ~ oi == 0 ->
    ebit_margin (Collector.build_record q y (Some rev) (Some oi) ni ta td se cash)
    = Some (oi / rev * 100).
Proof.
  intros q y rev oi ni ta td se cash Hrev Hoi. cbn.
  unfold Collector.both, Py.truthy_opt, Py.truthy.
  destruct (Qeq_bool rev 0) eqn:E1; [apply Qeq_bool_iff in E1; contradiction|].
  destruct (Qeq_bool oi 0) eqn:E2; [apply Qeq_bool_iff in E2; contradiction|].
  reflexivity.
Qed.

(** C5: a quarter with revenue 100 and an operating income of exactly 0 gets
    no EBIT margin at all, where the contract asks for the margin 0. *)
Theorem ebit_margin_zero_operating_income :
  ebit_margin (Collector.build_record "Q1" 2024 (Some 100) (Some 0)
                 None None None None None) = None.
Proof. reflexivity. Qed.

(** ** analyze_technical_indicators *)

Lemma iloc_neg_ok (df : DataFrame) (k : nat) s :
  iloc_neg df k = Py.Ok s -> fst s = columns df /\ In (snd s) (rows df).
Proof.
  unfold iloc_neg. destruct (k <=? len df)%nat; [|discriminate].
  destruct (nth_error (rows df) (len df - k)) as [r|] eqn:E; [|discriminate].
  intros [= <-]. split; [reflexivity|]. eapply nth_error_In, E.
Qed.

Lemma iloc_neg_in_range (df : DataFrame) (k : nat) :
  (1 <= k <= len df)%nat -> exists r, iloc_neg df k = Py.Ok (columns df, r).
Proof.
  intros Hk. unfold iloc_neg.
  destruct (Nat.leb_spec k (len df)) as [_|]; [|lia].
  destruct (nth_error (rows df) (len df - k)) as [r|] eqn:E; [eauto|].
  apply nth_error_None in E. unfold len in *. lia.
Qed.

Lemma technical_indicators_returns (df : DataFrame) (price : option Q) :
  exists ta, analyze_technical_indicators df price = Py.Ok ta.
Proof.
  unfold analyze_technical_indicators.
  destruct (empty df); [eauto|]. destruct price as [p|]; [|eauto].
  destruct (technical_body df p); cbn; eauto.
Qed.

(** C8: the function always returns; on an empty frame, on an absent price
    and whenever the body of the [try] raises, it returns the degraded
    result, whose numeric fields are absent and whose flag is [false]. *)
Theorem analyze_technical_indicators_never_raises :
  forall (technical_data : DataFrame) (current_price : option Q),
    exists ta,
      analyze_technical_indicators technical_data current_price = Py.Ok ta
      /\ (empty technical_data = true \/ current_price = None -> ta = degraded)
      /\ (forall price e,
            current_price = Some price ->
            technical_body technical_data price = Py.Raise e -> ta = degraded)
      /\ ma_20 degraded = None /\ ma_50 degraded = None /\ ma_200 degraded = None
      /\ price_vs_ma20 degraded = None /\ price_vs_ma50 degraded = None
      /\ price_vs_ma200 degraded = None /\ ma50_rising degraded = false.
Proof.
  intros df price. unfold analyze_technical_indicators.
  destruct (empty df) eqn:Hempty.
  - exists degraded. repeat split; reflexivity.
  - destruct price as [p|].
    + destruct (technical_body df p) as [ta|e] eqn:Hbody; cbn.
      * exists ta. repeat split; try reflexivity.
        -- intros [H|H]; discriminate.
        -- intros p' e' [= <-] H. congruence.
      * exists degraded. repeat split; reflexivity.
    + exists degraded. repeat split; reflexivity.
Qed.

(** A frame without the MA_50 column: the lookup raises inside the [try],
    and the caller still gets the degraded result. *)
Lemma analyze_technical_indicators_never_raises_witness :
  technical_body {| columns := ["MA_20"; "MA_200"];
                    rows := [[CNum 101; CNum 99]] |} 100
    = Py.Raise Py.KeyError
  /\ analyze_technical_indicators
       {| columns := ["MA_20"; "MA_200"]; rows := [[CNum 101; CNum 99]] |}
       (Some 100) = Py.Ok degraded.
Proof.
  split; [reflexivity|].
  destruct (analyze_technical_indicators_never_raises
              {| columns := ["MA_20"; "MA_200"]; rows := [[CNum 101; CNum 99]] |}
              (Some 100)) as (ta & Hret & _ & Hfault & _).
  rewrite Hret. f_equal. exact (Hfault 100 Py.KeyError eq_refl eq_refl).
Defined.

(** The numeric fields of the result whenever the body of the [try] returns:
    each is computed from the cell of the last row under its own column. *)
Lemma technical_body_fields (df : DataFrame) (p : Q) ta :
  technical_body df p = Py.Ok ta ->
  exists c20 c50 c200,
    cell_from_end df 1 "MA_20" = Some c20
    /\ cell_from_end df 1 "MA_50" = Some c50
    /\ cell_from_end df 1 "MA_200" = Some c200
    /\ ma_20 ta = round_cell c20 /\ ma_50 ta = round_cell c50
    /\ ma_200 ta = round_cell c200
    /\ price_vs_ma20 ta
       = round_if_truthy (if notna c20 then Some (pct_dev p c20) else None)
    /\ price_vs_ma50 ta
       = round_if_truthy (if notna c50 then Some (pct_dev p c50) else None)
    /\ price_vs_ma200 ta
       = round_if_truthy (if notna c200 then Some (pct_dev p c200) else None).
Proof.
  unfold technical_body, cell_from_end.
  destruct (iloc_neg df 1) as [s1|]; cbn [Py.bind]; [|discriminate].
  destruct (getitem s1 "MA_20") as [c20|]; cbn [Py.bind]; [|discriminate].
  destruct (getitem s1 "MA_50") as [c50|]; cbn [Py.bind]; [|discriminate].
  destruct (getitem s1 "MA_200") as [c200|]; cbn [Py.bind]; [|discriminate].
  match goal with |- Py.bind ?m _ = _ -> _ => destruct m as [b|]; cbn [Py.bind] end;
    [|discriminate].
  intros [= <-]. exists c20, c50, c200. cbn. repeat split; reflexivity.
Qed.

(** Away from a zero average and from a price equal to the average, the
    deviation is present and is the rounded percentage. *)
Lemma deviation_of_number (p m : Q) :
  ~ m == 0 -> ~ p == m ->
  round_if_truthy (if notna (CNum m) then Some (pct_dev p (CNum m)) else None)
  = Some (Fin (Py.round2 ((p - m) / m * 100))).
Proof.
  intros Hm Hp. cbn [notna pct_dev].
  destruct (Qeq_bool m 0) eqn:E0; [apply Qeq_bool_iff in E0; contradiction|].
  cbn [round_if_truthy truthy_fnum round_fnum]. unfold Py.truthy.
  destruct (Qeq_bool ((p - m) / m * 100) 0) eqn:E; [|reflexivity].
  exfalso. apply Qeq_bool_iff in E.
  apply Qmult_integral in E. destruct E as [E|E]; [|discriminate E].
  unfold Qdiv in E. apply Qmult_integral in E. destruct E as [E|E].
  - apply Hp. transitivity ((p - m) + m); [ring|]. rewrite E. ring.
  - apply Hm. rewrite <- (Qinv_involutive m), E. reflexivity.
Qed.

(** An absent average gives an absent deviation. *)
Lemma deviation_of_nan (p : Q) :
  round_if_truthy (if notna CNaN then Some (pct_dev p CNaN) else None) = None.
Proof. reflexivity. Qed.

(** C6: with the current price equal to the latest moving averages, the three
    deviations come back absent although the averages are present; the
    contract asks for the number 0.0 there. *)
Theorem price_equal_to_ma_gives_absent_deviation :
  analyze_technical_indicators
    {| columns := ["Close"; "MA_20"; "MA_50"; "MA_200"];
       rows := [[CNum 100; CNum 100; CNum 100; CNum 100]] |}
    (Some 100)
  = Py.Ok {| ma_20 := Some 100; ma_50 := Some 100; ma_200 := Some 100;
             price_vs_ma20 := None; price_vs_ma50 := None; price_vs_ma200 := None;
             ma50_rising := false |}.
Proof. vm_compute. reflexivity. Qed.

(** What the flag is whenever the body of the [try] returns. *)
Lemma technical_body_rising (df : DataFrame) (p : Q) ta :
  technical_body df p = Py.Ok ta ->
  ma50_rising ta
  = (10 <=? len df)%nat
    && match number (cell_from_end df 1 "MA_50"),
             number (cell_from_end df 10 "MA_50") with
       | Some a, Some b => Py.Qlt_bool b a
       | _, _ => false
       end.
Proof.
  unfold technical_body, cell_from_end.
  destruct (iloc_neg df 1) as [s1|] eqn:E1; cbn [Py.bind]; [|discriminate].
  destruct (getitem s1 "MA_20") as [c20|]; cbn [Py.bind]; [|discriminate].
  destruct (getitem s1 "MA_50") as [c50|]; cbn [Py.bind]; [|discriminate].
  destruct (getitem s1 "MA_200") as [c200|]; cbn [Py.bind]; [|discriminate].
  destruct (10 <=? len df)%nat; cbn [andb].
  - destruct c50 as [a|]; cbn [notna number].
    + destruct (iloc_neg df 10) as [s10|]; cbn [Py.bind]; [|discriminate].
      destruct (getitem s10 "MA_50") as [[b|]|]; cbn [Py.bind notna cell_gt andb number];
        try discriminate.
      * destruct (Py.Qlt_bool b a); intros [= <-]; reflexivity.
      * intros [= <-]; reflexivity.
    + intros [= <-]. reflexivity.
  - intros [= <-]. reflexivity.
Qed.

Lemma has_ma_columns_row (df : DataFrame) (r : list cell) :
  has_ma_columns df = true -> In r (rows df) ->
  exists c20 c50 c200,
    series_get (columns df) r "MA_20" = Py.Ok c20
    /\ series_get (columns df) r "MA_50" = Py.Ok c50
    /\ series_get (columns df) r "MA_200" = Py.Ok c200.
Proof.
  unfold has_ma_columns. rewrite forallb_forall. intros Hall Hin.
  specialize (Hall r Hin).
  destruct (series_get (columns df) r "MA_20") as [c20|]; [|discriminate].
  destruct (series_get (columns df) r "MA_50") as [c50|]; [|discriminate].
  destruct (series_get (columns df) r "MA_200") as [c200|]; [|discriminate].
  eauto 7.
Qed.

(** On a frame with the three columns the body of the [try] returns. *)
Lemma technical_body_returns (df : DataFrame) (p : Q) :
  has_ma_columns df = true -> (1 <= len df)%nat ->
  exists ta, technical_body df p = Py.Ok ta.
Proof.
  intros Hcols Hlen. unfold technical_body.
  destruct (iloc_neg_in_range df 1) as [r1 E1]; [lia|].
  rewrite E1; cbn [Py.bind]. unfold getitem at 1 2 3; cbn [fst snd].
  destruct (iloc_neg_ok _ _ _ E1) as [_ Hin1]. cbn [snd] in Hin1.
  destruct (has_ma_columns_row df r1 Hcols Hin1) as (c20 & c50 & c200 & -> & -> & ->).
  cbn [Py.bind].
  destruct (Nat.leb_spec 10 (len df)) as [H10|]; cbn [andb]; [|cbn; eauto].
  destruct (notna c50); [|cbn; eauto].
  destruct (iloc_neg_in_range df 10) as [r10 E10]; [lia|].
  rewrite E10; cbn [Py.bind]. unfold getitem; cbn [fst snd].
  destruct (iloc_neg_ok _ _ _ E10) as [_ Hin10]. cbn [snd] in Hin10.
  destruct (has_ma_columns_row df r10 Hcols Hin10) as (_ & c & _ & _ & -> & _).
  cbn [Py.bind]. destruct (notna c && cell_gt c50 c); cbn; eauto.
Qed.

Lemma has_ma_columns_not_empty (df : DataFrame) :
  has_ma_columns df = true -> (1 <= len df)%nat -> empty df = false.
Proof.
  intros Hcols Hlen. unfold empty.
  destruct (Nat.eqb_spec (len df) 0) as [|_]; [lia|]. cbn [orb].
  destruct (rows df) as [|r rs] eqn:Hrows; [unfold len in Hlen; rewrite Hrows in Hlen; cbn in Hlen; lia|].
  destruct (has_ma_columns_row df r Hcols) as (c & _ & _ & Hc & _);
    [rewrite Hrows; now left|].
  destruct (columns df); [discriminate Hc | reflexivity].
Qed.

(** C7: ma50_rising is false with fewer than 10 points, with the latest ma50
    absent, or with the ma50 of the 10th-from-last point absent; with all
    three in place it holds exactly when the latest ma50 is strictly above
    that earlier one. *)
Theorem ma50_rising_contract :
  forall (technical_data : DataFrame) (price : Q),
    exists ta,
      analyze_technical_indicators technical_data (Some price) = Py.Ok ta
      /\ ((len technical_data < 10)%nat -> ma50_rising ta = false)
      /\ (number (cell_from_end technical_data 1 "MA_50") = None ->
          ma50_rising ta = false)
      /\ (number (cell_from_end technical_data 10 "MA_50") = None ->
          ma50_rising ta = false)
      /\ (forall latest earlier : Q,
            has_ma_columns technical_data = true ->
            (10 <= len technical_data)%nat ->
            number (cell_from_end technical_data 1 "MA_50") = Some latest ->
            number (cell_from_end technical_data 10 "MA_50") = Some earlier ->
            (ma50_rising ta = true <-> earlier < latest)).
Proof.
  intros df p. unfold analyze_technical_indicators.
  destruct (empty df) eqn:Hempty.
  - exists degraded. repeat split; try reflexivity.
    + intros _. exfalso.
      rewrite has_ma_columns_not_empty in Hempty by (assumption || lia).
      discriminate.
    + intros _. exfalso.
      rewrite has_ma_columns_not_empty in Hempty by (assumption || lia).
      discriminate.
  - destruct (technical_body df p) as [ta|e] eqn:Hbody; cbn [Py.try_except].
    + exists ta. pose proof (technical_body_rising _ _ _ Hbody) as Hr.
      split; [reflexivity|]. repeat split.
      * intros Hlt. rewrite Hr.
        destruct (Nat.leb_spec 10 (len df)); [lia|reflexivity].
      * intros Hnone. rewrite Hr, Hnone. apply andb_false_r.
      * intros Hnone. rewrite Hr, Hnone.
        destruct (number (cell_from_end df 1 "MA_50")); apply andb_false_r.
      * rewrite Hr, H1, H2. intros Hand. apply andb_true_iff in Hand.
        apply Qlt_bool_true, Hand.
      * intros Hlt. rewrite Hr, H1, H2.
        destruct (Nat.leb_spec 10 (len df)); [|lia].
        cbn [andb]. now apply Qlt_bool_true.
    + exists degraded. repeat split; try reflexivity.
      * intros _. exfalso.
        destruct (technical_body_returns df p) as [ta Hta]; [assumption|lia|congruence].
      * intros _. exfalso.
        destruct (technical_body_returns df p) as [ta Hta]; [assumption|lia|congruence].
Qed.

(** On [Examples.rising_frame] the latest MA_50 (110) is above the one of the
    10th-from-last day (100), and the flag is set. *)
Lemma ma50_rising_contract_witness :
  exists ta,
    analyze_technical_indicators Examples.rising_frame (Some 120) = Py.Ok ta
    /\ ma50_rising ta = true.
Proof.
  destruct (ma50_rising_contract Examples.rising_frame 120)
    as (ta & Hret & _ & _ & _ & Hiff).
  exists ta. split; [exact Hret|].
  apply (Hiff 110 100); [reflexivity | cbn; lia | reflexivity | reflexivity | reflexivity].
Defined.

(** ** analyze_stock *)

(** C3: the recommendation of an analysis is [recommend] of its ranking score
    and of nothing else: STRONG BUY from 80, BUY on [60, 80), HOLD on
    [40, 60), SELL below 40; 79.9 gives BUY and 80.0 gives STRONG BUY. *)
Theorem recommendation_from_ranking_score :
  forall (sym : string) (fundamental_data : list FundamentalRecord)
         (technical_data : DataFrame) (price : option Q),
    (exists r,
        analyze_stock sym fundamental_data technical_data price = Py.Ok r
        /\ recommendation r = recommend (ranking_score r))
    /\ (forall s : Q,
          (80 <= s -> recommend s = "STRONG BUY")
          /\ (60 <= s /\ s < 80 -> recommend s = "BUY")
          /\ (40 <= s /\ s < 60 -> recommend s = "HOLD")
          /\ (s < 40 -> recommend s = "SELL"))
    /\ recommend (799 # 10) = "BUY"
    /\ recommend 80 = "STRONG BUY".
Proof.
  intros sym fd df price. split; [|split; [|split; reflexivity]].
  - unfold analyze_stock.
    destruct (technical_indicators_returns df price) as [ta ->].
    cbn [Py.bind]. eexists. split; reflexivity.
  - intros s. repeat split; intros H; unfold recommend.
    + thresholds. reflexivity.
    + thresholds. reflexivity.
    + thresholds.
      assert (s < 80) by (eapply Qlt_trans; [eassumption|reflexivity]).
      thresholds. reflexivity.
    + assert (s < 60) by (eapply Qlt_trans; [eassumption|reflexivity]).
      assert (s < 80) by (eapply Qlt_trans; [eassumption|reflexivity]).
      thresholds. reflexivity.
Qed.

(** ** The stable descending sort *)
Section SortedFacts.
Context {A : Type} (ltb : A -> A -> bool).

Local Abbreviation not_below := (Py.not_below ltb).

Hypothesis ltb_asym : forall a b, ltb a b = true -> ltb b a = false.
Hypothesis not_below_trans :
  forall a b c, not_below a b -> not_below b c -> not_below a c.

Lemma insert_desc_perm (x : A) (l : list A) :
  Permutation (Py.insert_desc ltb x l) (x :: l).
Proof using Type.
  induction l as [|y l IH]; cbn; [reflexivity|].
  destruct (ltb x y); [|reflexivity].
  rewrite IH. apply perm_swap.
Qed.

Lemma sorted_desc_perm (l : list A) : Permutation (Py.sorted_desc ltb l) l.
Proof using Type.
  induction l as [|x l IH]; cbn; [reflexivity|].
  rewrite insert_desc_perm. now constructor.
Qed.

Lemma insert_desc_sorted (x : A) (l : list A) :
  StronglySorted not_below l -> StronglySorted not_below (Py.insert_desc ltb x l).
Proof using ltb_asym not_below_trans.
  induction 1 as [|y l Hs IH Hy]; cbn.
  - repeat constructor.
  - destruct (ltb x y) eqn:E.
    + constructor; [exact IH|].
      eapply Permutation_Forall; [symmetry; apply insert_desc_perm|].
      constructor; [now apply ltb_asym | exact Hy].
    + constructor; [now constructor|].
      constructor; [exact E|].
      eapply List.Forall_impl; [|exact Hy]. intros z Hz.
      now apply (not_below_trans x y z).
Qed.

Lemma sorted_desc_sorted (l : list A) :
  StronglySorted not_below (Py.sorted_desc ltb l).
Proof using ltb_asym not_below_trans.
  induction l as [|x l IH]; cbn; [constructor|].
  now apply insert_desc_sorted.
Qed.

(** Stability: elements that are pairwise not below one another (equal
    keys) leave the sort in the order in which they entered it. *)
Lemma insert_desc_filter (p : A -> bool) (x : A) (l : list A) :
  (forall a b, p a = true -> p b = true -> ltb a b = false) ->
  List.filter p (Py.insert_desc ltb x l) = List.filter p (x :: l).
Proof using Type.
  intros Hp. induction l as [|y l IH]; [reflexivity|].
  cbn [Py.insert_desc]. destruct (ltb x y) eqn:E; [|reflexivity].
  cbn [List.filter] in *. rewrite IH.
  destruct (p x) eqn:Px, (p y) eqn:Py; try reflexivity.
  rewrite (Hp x y Px Py) in E. discriminate.
Qed.

Lemma sorted_desc_filter (p : A -> bool) (l : list A) :
  (forall a b, p a = true -> p b = true -> ltb a b = false) ->
  List.filter p (Py.sorted_desc ltb l) = List.filter p l.
Proof using Type.
  intros Hp. induction l as [|x l IH]; [reflexivity|].
  cbn [Py.sorted_desc fold_right].
  change (fold_right (Py.insert_desc ltb) [] l) with (Py.sorted_desc ltb l).
  rewrite insert_desc_filter by exact Hp.
  cbn [List.filter]. now rewrite IH.
Qed.
End SortedFacts.

(** ** The order of reporting periods *)

Lemma ascii_compare_lt_trans (a b c : Ascii.ascii) :
  Ascii.compare a b = Lt -> Ascii.compare b c = Lt -> Ascii.compare a c = Lt.
Proof.
  unfold Ascii.compare. rewrite !N.compare_lt_iff. lia.
Qed.

Lemma ascii_compare_refl (a : Ascii.ascii) : Ascii.compare a a = Eq.
Proof. unfold Ascii.compare. apply N.compare_refl. Qed.

Lemma string_compare_lt_trans (a b c : string) :
  String.compare a b = Lt -> String.compare b c = Lt -> String.compare a c = Lt.
Proof.
  revert b c. induction a as [|x a IH]; intros [|y b] [|z c]; cbn;
    try discriminate; try reflexivity.
  destruct (Ascii.compare x y) eqn:Exy; try discriminate;
    destruct (Ascii.compare y z) eqn:Eyz; try discriminate; intros Hab Hbc.
  - apply Ascii.compare_eq_iff in Exy, Eyz. subst.
    rewrite ascii_compare_refl. eapply IH; eassumption.
  - apply Ascii.compare_eq_iff in Exy. subst. rewrite Eyz. reflexivity.
  - apply Ascii.compare_eq_iff in Eyz. subst. rewrite Exy. reflexivity.
  - rewrite (ascii_compare_lt_trans _ _ _ Exy Eyz). reflexivity.
Qed.

Lemma string_ltb_asym (a b : string) : String.ltb a b = true -> String.ltb b a = false.
Proof.
  unfold String.ltb. rewrite (String.compare_antisym a b).
  destruct (String.compare b a); cbn; congruence.
Qed.

Lemma string_ltb_negtrans (a b c : string) :
  String.ltb a b = false -> String.ltb b c = false -> String.ltb a c = false.
Proof.
  unfold String.ltb.
  rewrite (String.compare_antisym a b), (String.compare_antisym b c),
    (String.compare_antisym a c).
  intros Hab Hbc.
  destruct (String.compare b a) eqn:Eba; cbn in Hab; try discriminate.
  - apply String.compare_eq_iff in Eba. subst. exact Hbc.
  - destruct (String.compare c b) eqn:Ecb; cbn in Hbc; try discriminate.
    + apply String.compare_eq_iff in Ecb. subst. rewrite Eba. reflexivity.
    + rewrite (string_compare_lt_trans _ _ _ Ecb Eba). reflexivity.
Qed.

Lemma period_ltb_asym (a b : FundamentalRecord) :
  period_ltb a b = true -> period_ltb b a = false.
Proof.
  unfold period_ltb. intros H.
  apply orb_true_iff in H. apply orb_false_iff.
  destruct H as [H|H].
  - apply Z.ltb_lt in H. split; [apply Z.ltb_ge; lia|].
    apply andb_false_iff. left. apply Z.eqb_neq. lia.
  - apply andb_true_iff in H. destruct H as [Hy Hq]. apply Z.eqb_eq in Hy.
    split; [apply Z.ltb_ge; lia|].
    apply andb_false_iff. right. now apply string_ltb_asym.
Qed.

Lemma period_ltb_negtrans (a b c : FundamentalRecord) :
  period_ltb a b = false -> period_ltb b c = false -> period_ltb a c = false.
Proof.
  unfold period_ltb. intros Hab Hbc.
  apply orb_false_iff in Hab, Hbc. destruct Hab as [Hab Hab'], Hbc as [Hbc Hbc'].
  apply Z.ltb_ge in Hab, Hbc. apply orb_false_iff. split; [apply Z.ltb_ge; lia|].
  destruct (Z.eqb_spec (year a) (year c)) as [Hac|]; [|reflexivity]. cbn [andb].
  assert (year a = year b) as Eab by lia.
  assert (year b = year c) as Ebc by lia.
  rewrite Eab, Z.eqb_refl in Hab'. rewrite Ebc, Z.eqb_refl in Hbc'.
  cbn [andb] in Hab', Hbc'. eapply string_ltb_negtrans; eassumption.
Qed.

Lemma string_ltb_irrefl (a : string) : String.ltb a a = false.
Proof.
  destruct (String.ltb a a) eqn:E; [|reflexivity].
  now rewrite (string_ltb_asym _ _ E) in E.
Qed.

Lemma same_period_not_below (y : Z) (q : string) (a b : FundamentalRecord) :
  same_period y q a = true -> same_period y q b = true -> period_ltb a b = false.
Proof.
  unfold same_period, period_ltb. intros Ha Hb.
  apply andb_true_iff in Ha, Hb. destruct Ha as [Hya Hqa], Hb as [Hyb Hqb].
  apply Z.eqb_eq in Hya, Hyb. apply String.eqb_eq in Hqa, Hqb.
  rewrite Hya, Hyb, Hqa, Hqb, Z.ltb_irrefl, Z.eqb_refl, string_ltb_irrefl.
  reflexivity.
Qed.

Lemma omap_length_le {A B} (f : A -> option B) (l : list A) :
  (length (omap f l) <= length l)%nat.
Proof.
  induction l as [|a l IH]; cbn; [lia|]. destruct (f a); cbn; lia.
Qed.

(** ** calculate_revenue_growth *)


(** ** rank_stocks *)

Lemma assign_ranks_notin (h : gmap nat (gmap string value)) (l : list nat) (i x : nat) :
  ~ In x l -> assign_ranks h l i !! x = h !! x.
Proof.
  revert h i. induction l as [|s rest IH]; intros h i Hx; [reflexivity|].
  cbn [assign_ranks]. rewrite IH by (intros Hin; apply Hx; now right).
  apply lookup_alter_ne. intros ->. apply Hx. now left.
Qed.

(** The loop sets [rank] in every listed dictionary and touches nothing else. *)
Lemma assign_ranks_in (h : gmap nat (gmap string value)) (l : list nat) (i x : nat) :
  In x l ->
  exists r, assign_ranks h l i !! x = (fun d => <["rank" := VNum r]> d) <$> h !! x.
Proof.
  revert h i. induction l as [|s rest IH]; intros h i Hx; [destruct Hx|].
  cbn [assign_ranks].
  destruct (in_dec Nat.eq_dec x rest) as [Hin|Hnin].
  - destruct (IH (alter (fun d => <["rank" := VNum (inject_Z (Z.of_nat i + 1))]> d) s h)
                (S i) Hin) as [r Hr].
    exists r. rewrite Hr. destruct (decide (s = x)) as [->|Hne].
    + rewrite lookup_alter_eq. destruct (h !! x) as [d|]; [|reflexivity].
      cbn. f_equal. apply insert_insert_eq.
    + now rewrite lookup_alter_ne.
  - destruct Hx as [->|Hx]; [|contradiction].
    exists (inject_Z (Z.of_nat i + 1)).
    rewrite assign_ranks_notin by assumption. apply lookup_alter_eq.
Qed.

(** Without repeated objects the element at index [j] gets rank [i + j + 1]. *)
Lemma assign_ranks_nodup (h : gmap nat (gmap string value)) (l : list nat) (i j x : nat) :
  NoDup l -> l !! j = Some x ->
  assign_ranks h l i !! x = (fun d => <["rank" := rank_value (i + j)]> d) <$> h !! x.
Proof.
  revert h i j. induction l as [|s rest IH]; intros h i j Hnd Hj; [discriminate|].
  apply NoDup_cons in Hnd. destruct Hnd as [Hs Hnd].
  cbn [assign_ranks]. destruct j as [|j]; cbn in Hj.
  - injection Hj as ->. rewrite assign_ranks_notin.
    + rewrite lookup_alter_eq, Nat.add_0_r. reflexivity.
    + intros Hin. apply Hs. now apply list_elem_of_In.
  - rewrite (IH _ (S i) j Hnd Hj). rewrite lookup_alter_ne.
    + now rewrite Nat.add_succ_r.
    + intros ->. apply Hs. eapply list_elem_of_lookup_2, Hj.
Qed.

Lemma assign_ranks_score (h : gmap nat (gmap string value)) (l : list nat) (i x : nat) :
  score_of (assign_ranks h l i) x = score_of h x.
Proof.
  unfold score_of, score_key, dict_get.
  destruct (in_dec Nat.eq_dec x l) as [Hin|Hnin].
  - destruct (assign_ranks_in h l i x Hin) as [r ->].
    destruct (h !! x) as [d|]; [|reflexivity]. cbn [fmap option_fmap option_map].
    now rewrite lookup_insert_ne.
  - now rewrite assign_ranks_notin.
Qed.

(** The decorated list the sort works on: every object with its key. *)
Lemma keys_computed (h : gmap nat (gmap string value)) (locs : list nat) :
  (forall l, In l locs -> is_Some (score_of h l)) ->
  exists keyed,
    Py.mapM (fun l => let* k := score_key h l in Py.Ok (k, l)) locs = Py.Ok keyed
    /\ map snd keyed = locs
    /\ Forall (fun kl => score_of h (snd kl) = Some (fst kl)) keyed.
Proof.
  induction locs as [|l locs IH]; intros Hall.
  - exists []. repeat split. constructor.
  - destruct IH as (keyed & Hk & Hsnd & Hfa); [intros; apply Hall; now right|].
    destruct (Hall l (or_introl eq_refl)) as [q Hq].
    unfold score_of in Hq. destruct (score_key h l) as [q'|] eqn:E; [|discriminate].
    exists ((q', l) :: keyed). cbn [Py.mapM]. rewrite E. cbn [Py.bind].
    rewrite Hk. cbn [Py.bind]. repeat split.
    + cbn. now rewrite Hsnd.
    + constructor; [|exact Hfa]. cbn. unfold score_of. now rewrite E.
Qed.

Lemma keyed_ltb_asym (a b : Q * nat) : keyed_ltb a b = true -> keyed_ltb b a = false.
Proof.
  unfold keyed_ltb. rewrite Qlt_bool_true, Qlt_bool_false. apply Qlt_le_weak.
Qed.

Lemma keyed_ltb_negtrans (a b c : Q * nat) :
  keyed_ltb a b = false -> keyed_ltb b c = false -> keyed_ltb a c = false.
Proof.
  unfold keyed_ltb. rewrite !Qlt_bool_false. intros Hab Hbc.
  eapply Qle_trans; eassumption.
Qed.

Lemma StronglySorted_lookup {A} (R : A -> A -> Prop) (l : list A) (i j : nat) a b :
  StronglySorted R l -> (i < j)%nat -> l !! i = Some a -> l !! j = Some b -> R a b.
Proof.
  intros Hs. revert i j. induction Hs as [|x l Hs IH Hx]; intros i j Hij Hi Hj;
    [discriminate|].
  destruct j as [|j]; [lia|]. cbn in Hj. destruct i as [|i]; cbn in Hi.
  - injection Hi as ->. rewrite List.Forall_forall in Hx. apply Hx.
    apply list_elem_of_In. eapply list_elem_of_lookup_2, Hj.
  - apply (IH i j); [lia|assumption..].
Qed.

(** Filtering the objects by score is filtering the decorated list by key. *)
Lemma filter_same_score (h : gmap nat (gmap string value)) (s : Q) (keyed : list (Q * nat)) :
  Forall (fun kl => score_of h (snd kl) = Some (fst kl)) keyed ->
  List.filter (same_score h s) (map snd keyed)
  = map snd (List.filter (fun kl => Qeq_bool (fst kl) s) keyed).
Proof.
  induction 1 as [|[q l] keyed Hq _ IH]; [reflexivity|].
  cbn [map List.filter snd fst] in *. unfold same_score at 1. rewrite Hq.
  destruct (Qeq_bool q s); cbn [map snd]; now rewrite IH.
Qed.

Lemma equal_keys_not_below (s : Q) (a b : Q * nat) :
  Qeq_bool (fst a) s = true -> Qeq_bool (fst b) s = true -> keyed_ltb a b = false.
Proof.
  intros Ha Hb. apply Qeq_bool_iff in Ha, Hb. unfold keyed_ltb.
  apply Qlt_bool_false. rewrite Ha, Hb. apply Qle_refl.
Qed.

(** What [rank_stocks] returns on records that all carry a numeric score. *)
Lemma rank_stocks_returns (h : gmap nat (gmap string value)) (locs : list nat) :
  (forall l, In l locs -> is_Some (score_of h l)) ->
  exists keyed,
    rank_stocks h locs
    = Py.Ok (assign_ranks h (map snd (Py.sorted_desc keyed_ltb keyed)) 0,
             map snd (Py.sorted_desc keyed_ltb keyed))
    /\ map snd keyed = locs
    /\ Forall (fun kl => score_of h (snd kl) = Some (fst kl)) keyed.
Proof.
  intros Hall. destruct (keys_computed h locs Hall) as (keyed & Hk & Hsnd & Hfa).
  exists keyed. unfold rank_stocks. rewrite Hk. cbn [Py.bind]. auto.
Qed.

(** C9: the output is ordered by ranking score, highest first; the element at
    0-based index i carries rank i + 1, so the ranks run 1..n without gaps;
    records with equal scores keep their input order. *)
Theorem rank_stocks_ordered_stable_ranked :
  forall (h : gmap nat (gmap string value)) (analysis_results : list nat),
    NoDup analysis_results ->
    (forall l, In l analysis_results -> is_Some (score_of h l)) ->
    exists h' ranked,
      rank_stocks h analysis_results = Py.Ok (h', ranked)
      /\ (forall i j li lj,
            (i < j)%nat -> ranked !! i = Some li -> ranked !! j = Some lj ->
            exists qi qj,
              score_of h' li = Some qi /\ score_of h' lj = Some qj /\ qj <= qi)
      /\ (forall i l, ranked !! i = Some l -> rank_of h' l = Some (rank_value i))
      /\ map (rank_of h') ranked
         = map (fun i => Some (rank_value i)) (seq 0 (length analysis_results))
      /\ (forall s,
            List.filter (same_score h s) ranked
            = List.filter (same_score h s) analysis_results).
Proof.
  intros h locs Hnd Hall.
  destruct (rank_stocks_returns h locs Hall) as (keyed & Hret & Hsnd & Hfa).
  set (sk := Py.sorted_desc keyed_ltb keyed) in *.
  assert (Permutation sk keyed) as Hperm by apply sorted_desc_perm.
  assert (Permutation (map snd sk) locs) as Hperm'.
  { rewrite <- Hsnd. now apply Permutation_map. }
  assert (Forall (fun kl => score_of h (snd kl) = Some (fst kl)) sk) as Hfa'.
  { eapply Permutation_Forall; [symmetry; exact Hperm | exact Hfa]. }
  assert (NoDup (map snd sk)) as Hnd'.
  { rewrite Hperm'. exact Hnd. }
  assert (forall i l, map snd sk !! i = Some l ->
            rank_of (assign_ranks h (map snd sk) 0) l = Some (rank_value i)) as Hrank.
  { intros i l Hi. unfold rank_of.
    rewrite (assign_ranks_nodup h _ 0 i l Hnd' Hi).
    destruct (Hall l) as [q Hq].
    { eapply Permutation_in; [exact Hperm'|].
      apply list_elem_of_In. eapply list_elem_of_lookup_2, Hi. }
    unfold score_of, score_key, dict_get in Hq.
    destruct (h !! l) as [d|]; [|discriminate]. cbn. apply lookup_insert_eq. }
  exists (assign_ranks h (map snd sk) 0), (map snd sk).
  split; [exact Hret|]. split; [|split; [exact Hrank|split]].
  - intros i j li lj Hij Hi Hj.
    change (map snd sk) with (snd <$> sk) in Hi, Hj.
    rewrite list_lookup_fmap in Hi, Hj.
    destruct (sk !! i) as [[qi li']|] eqn:Ei; [|discriminate].
    destruct (sk !! j) as [[qj lj']|] eqn:Ej; [|discriminate].
    cbn in Hi, Hj. injection Hi as <-. injection Hj as <-.
    exists qi, qj. rewrite !assign_ranks_score.
    rewrite List.Forall_forall in Hfa'.
    split; [|split].
    + apply (Hfa' (qi, li')), list_elem_of_In. eapply list_elem_of_lookup_2, Ei.
    + apply (Hfa' (qj, lj')), list_elem_of_In. eapply list_elem_of_lookup_2, Ej.
    + assert (Py.not_below keyed_ltb (qi, li') (qj, lj')) as Hnb.
      { eapply (StronglySorted_lookup _ sk i j); [|exact Hij|exact Ei|exact Ej].
        apply sorted_desc_sorted; [exact keyed_ltb_asym | exact keyed_ltb_negtrans]. }
      apply Qlt_bool_false in Hnb. exact Hnb.
  - apply list_eq. intros i.
    change (map (rank_of (assign_ranks h (map snd sk) 0)) (map snd sk))
      with (rank_of (assign_ranks h (map snd sk) 0) <$> map snd sk).
    change (map (fun i => Some (rank_value i)) (seq 0 (length locs)))
      with ((fun i => Some (rank_value i)) <$> seq 0 (length locs)).
    rewrite (list_lookup_fmap (rank_of _) (map snd sk) i).
    rewrite (list_lookup_fmap _ (seq 0 _) i).
    destruct (map snd sk !! i) as [l|] eqn:Ei.
    + cbn [fmap option_fmap option_map]. rewrite (Hrank i l Ei).
      assert (i < length locs)%nat as Hlt.
      { rewrite <- (Permutation_length Hperm'). eapply lookup_lt_Some, Ei. }
      rewrite lookup_seq_lt by exact Hlt. reflexivity.
    + cbn. apply lookup_ge_None in Ei.
      rewrite (Permutation_length Hperm') in Ei.
      rewrite lookup_seq_ge by exact Ei. reflexivity.
  - intros s. rewrite (filter_same_score h s sk Hfa').
    rewrite <- Hsnd, (filter_same_score h s keyed Hfa). f_equal.
    apply sorted_desc_filter. intros a b. apply equal_keys_not_below.
Qed.

(** C10: the output is a permutation of the input addresses; every listed
    dictionary is the old one with [rank] set, every other key and every
    other object being left as they were. *)
Theorem rank_stocks_permutation_frame :
  forall (h : gmap nat (gmap string value)) (analysis_results : list nat),
    (forall l, In l analysis_results -> is_Some (score_of h l)) ->
    exists h' ranked,
      rank_stocks h analysis_results = Py.Ok (h', ranked)
      /\ Permutation ranked analysis_results
      /\ length ranked = length analysis_results
      /\ (forall l, In l analysis_results ->
            exists d r, h !! l = Some d /\ h' !! l = Some (<["rank" := VNum r]> d))
      /\ (forall l d d' k,
            h !! l = Some d -> h' !! l = Some d' -> k <> "rank" -> d' !! k = d !! k)
      /\ (forall l, ~ In l analysis_results -> h' !! l = h !! l).
Proof.
  intros h locs Hall.
  destruct (rank_stocks_returns h locs Hall) as (keyed & Hret & Hsnd & Hfa).
  set (sk := Py.sorted_desc keyed_ltb keyed) in *.
  assert (Permutation (map snd sk) locs) as Hperm.
  { rewrite <- Hsnd. apply Permutation_map, sorted_desc_perm. }
  assert (forall l, In l locs ->
            exists d r, h !! l = Some d
              /\ assign_ranks h (map snd sk) 0 !! l = Some (<["rank" := VNum r]> d))
    as Hin.
  { intros l Hl. destruct (Hall l Hl) as [q Hq].
    unfold score_of, score_key, dict_get in Hq.
    destruct (h !! l) as [d|] eqn:Hd; [|discriminate].
    destruct (assign_ranks_in h (map snd sk) 0 l) as [r Hr].
    { eapply Permutation_in; [symmetry; exact Hperm | exact Hl]. }
    exists d, r. split; [reflexivity|]. rewrite Hr, Hd. reflexivity. }
  assert (forall l, ~ In l locs -> assign_ranks h (map snd sk) 0 !! l = h !! l) as Hout.
  { intros l Hl. apply assign_ranks_notin. intros Hl'. apply Hl.
    eapply Permutation_in; [exact Hperm | exact Hl']. }
  exists (assign_ranks h (map snd sk) 0), (map snd sk).
  split; [exact Hret|]. split; [exact Hperm|].
  split; [exact (Permutation_length Hperm)|]. split; [exact Hin|]. split; [|exact Hout].
  intros l d d' k Hd Hd' Hk.
  destruct (in_dec Nat.eq_dec l locs) as [Hl|Hl].
  - destruct (Hin l Hl) as (d0 & r & Hd0 & Hd0').
    rewrite Hd in Hd0. injection Hd0 as <-.
    rewrite Hd' in Hd0'. injection Hd0' as ->.
    apply lookup_insert_ne. congruence.
  - rewrite (Hout l Hl), Hd in Hd'. now injection Hd' as ->.
Qed.

Lemma batch_scores (l : nat) :
  In l [1; 2; 3]%nat -> is_Some (score_of Examples.batch l).
Proof.
  intros [<-|[<-|[<-|[]]]]; vm_compute; eexists; reflexivity.
Qed.

(** On [Examples.batch] the ranks of the output read 1, 2, 3, and the two
    records with score 70 stay in their input order. *)
Lemma rank_stocks_ordered_stable_ranked_witness :
  exists h' ranked,
    rank_stocks Examples.batch [1; 2; 3]%nat = Py.Ok (h', ranked)
    /\ map (rank_of h') ranked = [Some (VNum 1); Some (VNum 2); Some (VNum 3)]
    /\ List.filter (same_score Examples.batch 70) ranked = [1; 3]%nat.
Proof.
  destruct (rank_stocks_ordered_stable_ranked Examples.batch [1; 2; 3]%nat)
    as (h' & ranked & Hret & _ & _ & Hranks & Hstable).
  - apply (bool_decide_unpack _). vm_compute. exact I.
  - exact batch_scores.
  - exists h', ranked. split; [exact Hret|]. split; [exact Hranks|].
    rewrite Hstable. vm_compute. reflexivity.
Defined.

(** On [Examples.batch] the output holds the three input addresses, and the
    record at address 2 keeps its symbol. *)
Lemma rank_stocks_permutation_frame_witness :
  exists h' ranked,
    rank_stocks Examples.batch [1; 2; 3]%nat = Py.Ok (h', ranked)
    /\ Permutation ranked [1; 2; 3]%nat
    /\ (forall d', h' !! 2%nat = Some d' -> d' !! "symbol" = Some (VStr "BBB")).
Proof.
  destruct (rank_stocks_permutation_frame Examples.batch [1; 2; 3]%nat batch_scores)
    as (h' & ranked & Hret & Hperm & _ & _ & Hframe & _).
  exists h', ranked. split; [exact Hret|]. split; [exact Hperm|].
  intros d' Hd'.
  rewrite (Hframe 2%nat _ d' "symbol" eq_refl Hd'); [reflexivity | discriminate].
Defined.

(** * Further properties *)

(** ** Rounding *)

Lemma round_half_even_floor (x : Q) :
  Py.round_half_even x = Qfloor x \/ Py.round_half_even x = (Qfloor x + 1)%Z.
Proof.
  unfold Py.round_half_even.
  destruct (Qcompare (x - inject_Z (Qfloor x)) (1 # 2)); auto.
  destruct (Z.even (Qfloor x)); auto.
Qed.

Lemma round_half_even_mono (x y : Q) :
  x <= y -> (Py.round_half_even x <= Py.round_half_even y)%Z.
Proof.
  intros Hxy. pose proof (Qfloor_resp_le _ _ Hxy) as Hfl.
  destruct (Z.eq_dec (Qfloor x) (Qfloor y)) as [E|NE].
  - unfold Py.round_half_even. rewrite <- E.
    generalize (inject_Z (Qfloor x)). intros fx.
    destruct (Qcompare (x - fx) (1 # 2)) eqn:Cx;
      destruct (Qcompare (y - fx) (1 # 2)) eqn:Cy;
      try (destruct (Z.even (Qfloor x))); try lia; exfalso;
      first [apply Qeq_alt in Cx | apply Qlt_alt in Cx | apply Qgt_alt in Cx];
      first [apply Qeq_alt in Cy | apply Qlt_alt in Cy | apply Qgt_alt in Cy];
      lra.
  - destruct (round_half_even_floor x) as [-> | ->],
      (round_half_even_floor y) as [-> | ->]; lia.
Qed.

Lemma round_half_even_comp (x y : Q) :
  x == y -> Py.round_half_even x = Py.round_half_even y.
Proof.
  intros E. apply Z.le_antisymm; apply round_half_even_mono; rewrite E; apply Qle_refl.
Qed.

Lemma round2_mono (x y : Q) : x <= y -> Py.round2 x <= Py.round2 y.
Proof.
  intros Hxy. unfold Py.round2. rewrite !Qred_correct.
  apply Qmult_le_compat_r; [|discriminate].
  rewrite <- Zle_Qle. apply round_half_even_mono. lra.
Qed.

Lemma round2_comp (x y : Q) : x == y -> Py.round2 x = Py.round2 y.
Proof.
  intros E. unfold Py.round2. apply Qred_complete.
  rewrite (round_half_even_comp (x * 100) (y * 100)) by (rewrite E; reflexivity).
  reflexivity.
Qed.

(** ** analyze_ebit_margin_trend *)

Lemma ebit_margin_trend_margins (fd : list FundamentalRecord) :
  avg_margin (analyze_ebit_margin_trend fd)
  = match omap ebit_margin fd with
    | [] => None
    | ms => Some (Py.round2 (mean ms))
    end.
Proof.
  unfold analyze_ebit_margin_trend. destruct fd as [|r fd]; [reflexivity|].
  destruct (omap ebit_margin (r :: fd)); reflexivity.
Qed.

(** ** calculate_revenue_growth: order of the input and sign of the result *)

Lemma revenue_growth_first_two (fd : list FundamentalRecord) (current previous : Q) rest :
  omap revenue (Py.sorted_desc period_ltb fd) = current :: previous :: rest ->
  calculate_revenue_growth fd
  = if Qle_bool previous 0 then None
    else Some (Py.round2 ((current - previous) / previous * 100)).
Proof.
  intros Hrev.
  assert (2 <= length fd)%nat as Hfd.
  { pose proof (omap_length_le revenue (Py.sorted_desc period_ltb fd)) as Hle.
    rewrite Hrev, (Permutation_length (sorted_desc_perm period_ltb fd)) in Hle.
    cbn in Hle. lia. }
  unfold calculate_revenue_growth.
  destruct (Nat.ltb_spec (length fd) 2); [lia|].
  rewrite Hrev. reflexivity.
Qed.

(** X3: Revenue that did not fall gives a growth of at least 0, hence at least 20
    points; revenue that did not rise gives a growth of at most 0. *)
Theorem revenue_growth_sign :
  forall (fd : list FundamentalRecord) (current previous : Q) rest,
    omap revenue (Py.sorted_desc period_ltb fd) = current :: previous :: rest ->
    0 < previous ->
    exists g,
      calculate_revenue_growth fd = Some g
      /\ (previous <= current -> 0 <= g /\ 20 <= revenue_growth_points (Some g))
      /\ (current <= previous -> g <= 0).
Proof.
  intros fd current previous rest Hrev Hpos.
  rewrite (revenue_growth_first_two _ _ _ _ Hrev), (Qle_bool_false _ _ Hpos).
  eexists. split; [reflexivity|].
  assert (forall x, 0 <= x -> 0 <= x / previous * 100) as Hnonneg.
  { intros x Hx. apply Qmult_le_0_compat; [|discriminate].
    apply Qle_shift_div_l; [exact Hpos|]. now rewrite Qmult_0_l. }
  assert (forall x, x <= 0 -> x / previous * 100 <= 0) as Hnonpos.
  { intros x Hx.
    assert (x / previous * 100 == - ((- x) / previous * 100)) as E
      by (field; intros E; rewrite E in Hpos; discriminate).
    rewrite E. pose proof (Hnonneg (- x)) as H. lra. }
  split.
  - intros Hle.
    assert (0 <= Py.round2 ((current - previous) / previous * 100)) as Hg.
    { apply Qle_trans with (Py.round2 0); [discriminate|].
      apply round2_mono, Hnonneg. lra. }
    split; [exact Hg|].
    unfold revenue_growth_points, Py.Qlt_bool.
    rewrite (Qle_bool_true _ _ Hg).
    split_thresholds; cbn; apply Qle_bool_iff; reflexivity.
  - intros Hle. apply Qle_trans with (Py.round2 0); [|discriminate].
    apply round2_mono, Hnonpos. lra.
Qed.

(** Two descending arrangements of the same elements coincide when no two
    different elements tie. *)
Lemma strongly_sorted_perm_eq {A} (R : A -> A -> Prop) (l1 l2 : list A) :
  (forall a b, In a l1 -> In b l1 -> R a b -> R b a -> a = b) ->
  StronglySorted R l1 -> StronglySorted R l2 -> Permutation l1 l2 -> l1 = l2.
Proof.
  revert l2. induction l1 as [|x l1 IH]; intros l2 Hanti Hs1 Hs2 Hp.
  - apply Permutation_nil in Hp. now subst.
  - destruct l2 as [|y l2]; [symmetry in Hp; apply Permutation_nil in Hp; discriminate|].
    apply StronglySorted_inv in Hs1, Hs2.
    destruct Hs1 as [Hs1 Hx], Hs2 as [Hs2 Hy].
    rewrite List.Forall_forall in Hx, Hy.
    assert (x = y) as ->.
    { assert (In y (x :: l1)) as Hyin
        by (eapply Permutation_in; [symmetry; exact Hp | now left]).
      assert (In x (y :: l2)) as Hxin
        by (eapply Permutation_in; [exact Hp | now left]).
      destruct Hyin as [->|Hyin]; [reflexivity|].
      destruct Hxin as [->|Hxin]; [reflexivity|].
      apply Hanti; [now left | now right | now apply Hx | now apply Hy]. }
    f_equal. apply IH; [| assumption.. |].
    + intros a b Ha Hb. apply Hanti; now right.
    + eapply Permutation_cons_inv, Hp.
Qed.

Lemma period_tie (a b : FundamentalRecord) :
  period_ltb a b = false -> period_ltb b a = false ->
  year a = year b /\ quarter a = quarter b.
Proof.
  unfold period_ltb. intros Hab Hba.
  apply orb_false_iff in Hab, Hba. destruct Hab as [Hab Hab'], Hba as [Hba Hba'].
  apply Z.ltb_ge in Hab, Hba. assert (year a = year b) as E by lia.
  split; [exact E|].
  rewrite E, Z.eqb_refl in Hab'. rewrite E, Z.eqb_refl in Hba'.
  cbn [andb] in Hab', Hba'. unfold String.ltb in *.
  rewrite String.compare_antisym in Hba'.
  destruct (String.compare (quarter a) (quarter b)) eqn:C; cbn in *; try discriminate.
  now apply String.compare_eq_iff.
Qed.

(** X4: With one record per reporting period, the growth does not depend on the
    order in which the records are supplied. *)
Theorem revenue_growth_order_independent :
  forall fd fd' : list FundamentalRecord,
    (forall a b, In a fd -> In b fd ->
       year a = year b -> quarter a = quarter b -> a = b) ->
    Permutation fd fd' ->
    calculate_revenue_growth fd = calculate_revenue_growth fd'.
Proof.
  intros fd fd' Hdistinct Hp.
  assert (Py.sorted_desc period_ltb fd = Py.sorted_desc period_ltb fd') as Hs.
  { apply (strongly_sorted_perm_eq (Py.not_below period_ltb)).
    - intros a b Ha Hb Hab Hba.
      destruct (period_tie a b Hab Hba) as [Hy Hq].
      apply Hdistinct; try assumption;
        (eapply Permutation_in; [apply (sorted_desc_perm period_ltb) | assumption]).
    - apply sorted_desc_sorted; [exact period_ltb_asym | exact period_ltb_negtrans].
    - apply sorted_desc_sorted; [exact period_ltb_asym | exact period_ltb_negtrans].
    - rewrite !sorted_desc_perm. exact Hp. }
  unfold calculate_revenue_growth.
  rewrite Hs, (Permutation_length Hp). reflexivity.
Qed.

(** ** calculate_ranking_score and analyze_stock: derived facts *)

(** Turns every threshold test of the goal into the inequality it decides. *)
Ltac decide_thresholds :=
  repeat match goal with
  | |- context [Qle_bool ?a ?b] =>
      let E := fresh "E" in
      destruct (Qle_bool a b) eqn:E;
      [apply Qle_bool_iff in E | apply Qle_bool_false_lt in E]
  end.

Lemma growth_score_mono (g1 g2 s : Q) :
  g1 <= g2 ->
  (if Qle_bool 10 g1 then s + 40 else if Qle_bool 5 g1 then s + 30
   else if Qle_bool 0 g1 then s + 20 else s + 0)
  <= (if Qle_bool 10 g2 then s + 40 else if Qle_bool 5 g2 then s + 30
      else if Qle_bool 0 g2 then s + 20 else s + 0).
Proof. intros H. decide_thresholds; lra. Qed.

Lemma margin_score_mono (m1 m2 s1 s2 : Q) :
  m1 <= m2 -> s1 <= s2 ->
  (if Qle_bool 25 m1 then s1 + 40 else if Qle_bool 20 m1 then s1 + 35
   else if Qle_bool 15 m1 then s1 + 30 else if Qle_bool 10 m1 then s1 + 20
   else if Qle_bool 5 m1 then s1 + 10 else s1 + 0)
  <= (if Qle_bool 25 m2 then s2 + 40 else if Qle_bool 20 m2 then s2 + 35
      else if Qle_bool 15 m2 then s2 + 30 else if Qle_bool 10 m2 then s2 + 20
      else if Qle_bool 5 m2 then s2 + 10 else s2 + 0).
Proof. intros H Hs. decide_thresholds; lra. Qed.

(** X5: The score never drops when an input improves: a higher (or newly
    present) growth, a higher (or newly present) margin, a flag that turns
    true. *)
Theorem ranking_score_monotone :
  forall (g1 g2 m1 m2 : option Q) (ta1 ta2 : TechnicalAnalysis),
    (forall x, g1 = Some x -> exists y, g2 = Some y /\ x <= y) ->
    (forall x, m1 = Some x -> exists y, m2 = Some y /\ x <= y) ->
    (ma50_rising ta1 = true -> ma50_rising ta2 = true) ->
    calculate_ranking_score g1 {| avg_margin := m1 |} ta1
    <= calculate_ranking_score g2 {| avg_margin := m2 |} ta2.
Proof.
  intros g1 g2 m1 m2 ta1 ta2 Hg Hm Hr.
  unfold calculate_ranking_score; cbn [avg_margin].
  assert (ma50_rising ta1 = false \/ ma50_rising ta2 = true) as Hr'
    by (destruct (ma50_rising ta1); auto).
  destruct g1 as [x1|].
  - destruct (Hg x1 eq_refl) as (x2 & -> & Hx).
    destruct m1 as [y1|].
    + destruct (Hm y1 eq_refl) as (y2 & -> & Hy).
      destruct Hr' as [-> | ->]; destruct (ma50_rising ta2) eqn:R2;
        try destruct (ma50_rising ta1); decide_thresholds; lra.
    + destruct m2 as [y2|];
      destruct Hr' as [-> | ->]; destruct (ma50_rising ta2) eqn:R2;
        try destruct (ma50_rising ta1); decide_thresholds; lra.
  - destruct m1 as [y1|].
    + destruct (Hm y1 eq_refl) as (y2 & -> & Hy).
      destruct g2 as [x2|];
      destruct Hr' as [-> | ->]; destruct (ma50_rising ta2) eqn:R2;
        try destruct (ma50_rising ta1); decide_thresholds; lra.
    + destruct g2 as [x2|], m2 as [y2|];
      destruct Hr' as [-> | ->]; destruct (ma50_rising ta2) eqn:R2;
        try destruct (ma50_rising ta1); decide_thresholds; lra.
Qed.

(** How the fields of an analysis hang together. *)
Lemma analyze_stock_fields (sym : string) (fd : list FundamentalRecord)
    (df : DataFrame) (price : option Q) r :
  analyze_stock sym fd df price = Py.Ok r ->
  exists ta,
    analyze_technical_indicators df price = Py.Ok ta
    /\ technical_details r = ta
    /\ res_ma50_rising r = ma50_rising ta
    /\ revenue_growth_4q r = calculate_revenue_growth fd
    /\ avg_ebit_margin r = avg_margin (analyze_ebit_margin_trend fd)
    /\ ranking_score r
       = calculate_ranking_score (calculate_revenue_growth fd)
           (analyze_ebit_margin_trend fd) ta
    /\ recommendation r = recommend (ranking_score r).
Proof.
  unfold analyze_stock.
  destruct (analyze_technical_indicators df price) as [ta|]; cbn [Py.bind];
    [|discriminate].
  intros [= <-]. exists ta. cbn. repeat split; reflexivity.
Qed.

(** X6: STRONG BUY is out of reach without both fundamentals: it takes a present
    growth of at least 0 and a present average margin of at least 10, and
    with the MA50 not rising it takes growth >= 10 and margin >= 25. *)
Theorem strong_buy_needs_fundamentals :
  forall (sym : string) (fd : list FundamentalRecord) (df : DataFrame)
         (price : option Q) r,
    analyze_stock sym fd df price = Py.Ok r ->
    recommendation r = "STRONG BUY" ->
    exists g m,
      revenue_growth_4q r = Some g /\ 0 <= g
      /\ avg_ebit_margin r = Some m /\ 10 <= m
      /\ (res_ma50_rising r = false -> 10 <= g /\ 25 <= m).
Proof.
  intros sym fd df price r Hr Hrec.
  destruct (analyze_stock_fields _ _ _ _ _ Hr)
    as (ta & _ & _ & Hflag & Hg & Hm & Hscore & Hrecommend).
  rewrite Hrecommend, Hscore in Hrec. rewrite Hg, Hm, Hflag.
  destruct (analyze_ebit_margin_trend fd) as [am]. cbn [avg_margin] in *.
  unfold calculate_ranking_score in Hrec; cbn [avg_margin] in Hrec.
  destruct (calculate_revenue_growth fd) as [g|], am as [m|];
    destruct (ma50_rising ta);
    revert Hrec; decide_thresholds; cbn; try discriminate; intros _;
    exists g, m; repeat split; try lra; try discriminate.
Qed.

(** X7: Without a growth figure and without a margin the recommendation is SELL,
    whatever the price history shows: the score is 0 or 20. *)
Theorem no_fundamentals_sell :
  forall (sym : string) (fd : list FundamentalRecord) (df : DataFrame)
         (price : option Q),
    (length (omap revenue fd) < 2)%nat ->
    omap ebit_margin fd = [] ->
    exists r,
      analyze_stock sym fd df price = Py.Ok r
      /\ revenue_growth_4q r = None /\ avg_ebit_margin r = None
      /\ ranking_score r = (if res_ma50_rising r then 20 else 0)
      /\ recommendation r = "SELL".
Proof.
  intros sym fd df price Hrev Hmar.
  assert (calculate_revenue_growth fd = None) as Hg.
  { unfold calculate_revenue_growth.
    destruct (length fd <? 2)%nat; [reflexivity|].
    rewrite (Permutation_length
               (omap_Permutation revenue _ _ (sorted_desc_perm period_ltb fd))).
    destruct (Nat.ltb_spec (length (omap revenue fd)) 2); [reflexivity|lia]. }
  assert (avg_margin (analyze_ebit_margin_trend fd) = None) as Hm
    by (rewrite ebit_margin_trend_margins, Hmar; reflexivity).
  unfold analyze_stock.
  destruct (technical_indicators_returns df price) as [ta ->]. cbn [Py.bind].
  eexists. split; [reflexivity|]. cbn.
  rewrite Hg, Hm. unfold calculate_ranking_score. rewrite Hm.
  repeat split; destruct (ma50_rising ta); reflexivity.
Qed.

(** ** rank_stocks: ranking again, and records without a score *)

Lemma keys_of_success (h : gmap nat (gmap string value)) (locs : list nat) keyed :
  Py.mapM (fun l => let* k := score_key h l in Py.Ok (k, l)) locs = Py.Ok keyed ->
  map snd keyed = locs
  /\ Forall (fun kl => score_of h (snd kl) = Some (fst kl)) keyed.
Proof.
  revert keyed. induction locs as [|l locs IH]; intros keyed; cbn [Py.mapM].
  - intros [= <-]. split; [reflexivity|constructor].
  - destruct (score_key h l) as [q|] eqn:E; cbn [Py.bind]; [|discriminate].
    destruct (Py.mapM _ locs) as [ks|]; cbn [Py.bind]; [|discriminate].
    intros [= <-]. destruct (IH ks eq_refl) as [Hsnd Hfa]. split.
    + cbn. now rewrite Hsnd.
    + constructor; [|exact Hfa]. cbn. unfold score_of. now rewrite E.
Qed.

Lemma keyed_unique (h : gmap nat (gmap string value)) (k1 k2 : list (Q * nat)) :
  map snd k1 = map snd k2 ->
  Forall (fun kl => score_of h (snd kl) = Some (fst kl)) k1 ->
  Forall (fun kl => score_of h (snd kl) = Some (fst kl)) k2 ->
  k1 = k2.
Proof.
  intros Hsnd H1. revert k2 Hsnd.
  induction H1 as [|[q l] k1 Hq _ IH]; intros [|[q' l'] k2] Hsnd H2;
    try discriminate; [reflexivity|].
  cbn in Hsnd. injection Hsnd as <- Hsnd.
  apply List.Forall_cons_iff in H2. destruct H2 as [Hq' H2]. cbn in Hq, Hq'.
  rewrite Hq in Hq'. injection Hq' as <-. f_equal. now apply IH.
Qed.

Lemma sorted_desc_of_sorted {A} (ltb : A -> A -> bool) (l : list A) :
  StronglySorted (Py.not_below ltb) l -> Py.sorted_desc ltb l = l.
Proof.
  induction 1 as [|x l _ IH Hx]; [reflexivity|].
  cbn [Py.sorted_desc fold_right].
  change (fold_right (Py.insert_desc ltb) [] l) with (Py.sorted_desc ltb l).
  rewrite IH. destruct l as [|y l]; [reflexivity|].
  apply List.Forall_cons_iff in Hx. destruct Hx as [Hxy _].
  cbn [Py.insert_desc]. now rewrite Hxy.
Qed.

Lemma assign_ranks_again (h : gmap nat (gmap string value)) (l : list nat) :
  NoDup l -> assign_ranks (assign_ranks h l 0) l 0 = assign_ranks h l 0.
Proof.
  intros Hnd. apply map_eq. intros x.
  destruct (in_dec Nat.eq_dec x l) as [Hin|Hnin].
  - apply list_elem_of_In, list_elem_of_lookup_1 in Hin. destruct Hin as [j Hj].
    rewrite (assign_ranks_nodup _ l 0 j x Hnd Hj).
    rewrite (assign_ranks_nodup h l 0 j x Hnd Hj).
    destruct (h !! x) as [d|]; [|reflexivity]. cbn. f_equal. apply insert_insert_eq.
  - now rewrite !assign_ranks_notin.
Qed.

(** X8: Ranking an already ranked list changes nothing: the order and every
    stored rank stay as they are. *)
Theorem rank_stocks_idempotent :
  forall (h h' : gmap nat (gmap string value)) (analysis_results ranked : list nat),
    NoDup analysis_results ->
    rank_stocks h analysis_results = Py.Ok (h', ranked) ->
    rank_stocks h' ranked = Py.Ok (h', ranked).
Proof.
  intros h h' locs ranked Hnd Hret. unfold rank_stocks in Hret.
  destruct (Py.mapM _ locs) as [keyed|] eqn:Hkeys; cbn [Py.bind] in Hret;
    [|discriminate].
  injection Hret as <- <-.
  destruct (keys_of_success _ _ _ Hkeys) as [Hsnd Hfa].
  set (sk := Py.sorted_desc keyed_ltb keyed) in *.
  set (h' := assign_ranks h (map snd sk) 0).
  assert (Permutation sk keyed) as Hperm by apply sorted_desc_perm.
  assert (Forall (fun kl => score_of h' (snd kl) = Some (fst kl)) sk) as Hfa'.
  { eapply Permutation_Forall; [symmetry; exact Hperm|].
    eapply List.Forall_impl; [|exact Hfa]. intros kl Hkl.
    unfold h'. now rewrite assign_ranks_score. }
  assert (NoDup (map snd sk)) as Hnd'.
  { assert (Permutation (map snd sk) locs) as Hp
      by (rewrite <- Hsnd; now apply Permutation_map).
    rewrite Hp. exact Hnd. }
  destruct (keys_computed h' (map snd sk)) as (keyed' & Hkeys' & Hsnd' & Hfa'').
  { intros l Hl. apply in_map_iff in Hl. destruct Hl as ([q l'] & <- & Hin).
    rewrite List.Forall_forall in Hfa'. rewrite (Hfa' _ Hin). eauto. }
  assert (keyed' = sk) as -> by (eapply keyed_unique; eassumption).
  unfold rank_stocks. rewrite Hkeys'. cbn [Py.bind].
  rewrite sorted_desc_of_sorted
    by (apply sorted_desc_sorted; [exact keyed_ltb_asym | exact keyed_ltb_negtrans]).
  unfold h'. now rewrite assign_ranks_again.
Qed.

(** X9: A record without the key [ranking_score] makes the call raise KeyError
    (the sort never starts, so no rank is written). *)
Theorem rank_stocks_missing_score :
  forall (h : gmap nat (gmap string value)) (analysis_results : list nat) (l : nat) d,
    (forall l', In l' analysis_results ->
       is_Some (score_of h l')
       \/ exists d', h !! l' = Some d' /\ d' !! "ranking_score" = None) ->
    In l analysis_results ->
    h !! l = Some d -> d !! "ranking_score" = None ->
    rank_stocks h analysis_results = Py.Raise Py.KeyError.
Proof.
  intros h locs l d Hall Hin Hd Hmiss. unfold rank_stocks.
  assert (Py.mapM (fun l => let* k := score_key h l in Py.Ok (k, l)) locs
          = Py.Raise Py.KeyError) as ->; [|reflexivity].
  induction locs as [|l0 locs IH]; [destruct Hin|].
  cbn [Py.mapM].
  destruct (Hall l0 (or_introl eq_refl)) as [[q Hq] | (d' & Hd' & Hnone)].
  - unfold score_of in Hq. destruct (score_key h l0) as [q'|] eqn:E; [|discriminate].
    cbn [Py.bind]. destruct Hin as [->|Hin].
    + unfold score_key, dict_get in E. rewrite Hd, Hmiss in E. discriminate.
    + rewrite IH; [reflexivity | | exact Hin]. intros l' Hl'. apply Hall. now right.
  - unfold score_key, dict_get. rewrite Hd', Hnone. reflexivity.
Qed.

(** ** data_collector.py: line items and derived ratios *)

(** X10: An extractor returns the number under the first of its keys that holds
    one: keys that are missing or NaN are passed over, and the result is
    absent exactly when no key holds a number. *)
Theorem extract_first_priority :
  forall (keys : list string) (data : gmap string cell),
    (forall v,
        Yahoo.extract_first keys data = Some v <->
        exists i key,
          keys !! i = Some key /\ data !! key = Some (CNum v)
          /\ forall j key', (j < i)%nat -> keys !! j = Some key' ->
               number (data !! key') = None)
    /\ (Yahoo.extract_first keys data = None <->
        forall key, In key keys -> number (data !! key) = None).
Proof.
  intros keys data. induction keys as [|k keys [IHs IHn]].
  - split.
    + intros v. split; [discriminate|]. intros (i & key & Hi & _). discriminate.
    + split; [intros _ key []|reflexivity].
  - cbn [Yahoo.extract_first]. split.
    + intros v. destruct (data !! k) as [[q|]|] eqn:Hk.
      * split.
        -- intros [= <-]. exists 0%nat, k. repeat split; [exact Hk|]. intros; lia.
        -- intros (i & key & Hi & Hkey & Hbefore). destruct i as [|i].
           ++ cbn in Hi. injection Hi as <-. congruence.
           ++ specialize (Hbefore 0%nat k ltac:(lia) eq_refl).
              rewrite Hk in Hbefore. discriminate.
      * rewrite IHs. split.
        -- intros (i & key & Hi & Hkey & Hbefore). exists (S i), key.
           repeat split; [exact Hi | exact Hkey |].
           intros [|j] key' Hj Hkey'.
           ++ cbn in Hkey'. injection Hkey' as <-. now rewrite Hk.
           ++ apply (Hbefore j); [lia | exact Hkey'].
        -- intros (i & key & Hi & Hkey & Hbefore). destruct i as [|i].
           ++ cbn in Hi. injection Hi as <-. congruence.
           ++ exists i, key. repeat split; [exact Hi | exact Hkey |].
              intros j key' Hj Hkey'. apply (Hbefore (S j)); [lia | exact Hkey'].
      * rewrite IHs. split.
        -- intros (i & key & Hi & Hkey & Hbefore). exists (S i), key.
           repeat split; [exact Hi | exact Hkey |].
           intros [|j] key' Hj Hkey'.
           ++ cbn in Hkey'. injection Hkey' as <-. now rewrite Hk.
           ++ apply (Hbefore j); [lia | exact Hkey'].
        -- intros (i & key & Hi & Hkey & Hbefore). destruct i as [|i].
           ++ cbn in Hi. injection Hi as <-. congruence.
           ++ exists i, key. repeat split; [exact Hi | exact Hkey |].
              intros j key' Hj Hkey'. apply (Hbefore (S j)); [lia | exact Hkey'].
    + destruct (data !! k) as [[q|]|] eqn:Hk.
      * split; [discriminate|]. intros H. specialize (H k (or_introl eq_refl)).
        rewrite Hk in H. discriminate.
      * rewrite IHn. split.
        -- intros H key [<-|Hin]; [now rewrite Hk | now apply H].
        -- intros H key Hin. apply H. now right.
      * rewrite IHn. split.
        -- intros H key [<-|Hin]; [now rewrite Hk | now apply H].
        -- intros H key Hin. apply H. now right.
Qed.

(** Revenue is read from "Total Revenue" when that holds a number; when it is
    missing or NaN, from "Revenue". *)
Theorem extract_revenue_fallback :
  forall (data : gmap string cell) (v : Q),
    (data !! "Total Revenue" = Some (CNum v) -> Yahoo._extract_revenue data = Some v)
    /\ (number (data !! "Total Revenue") = None ->
        data !! "Revenue" = Some (CNum v) -> Yahoo._extract_revenue data = Some v).
Proof.
  intros data v. unfold Yahoo._extract_revenue, Yahoo.revenue_keys.
  cbn [Yahoo.extract_first]. split.
  - intros ->. reflexivity.
  - intros Hnone ->. destruct (data !! "Total Revenue") as [[q|]|];
      [discriminate | reflexivity | reflexivity].
Qed.

Lemma truthy_opt_some (x : option Q) :
  Py.truthy_opt x = true <-> exists q, x = Some q /\ ~ q == 0.
Proof.
  destruct x as [q|]; cbn; unfold Py.truthy.
  - rewrite negb_true_iff. split.
    + intros E. exists q. split; [reflexivity|]. intros H.
      apply Qeq_bool_iff in H. congruence.
    + intros (q' & [= <-] & Hq). destruct (Qeq_bool q 0) eqn:E; [|reflexivity].
      apply Qeq_bool_iff in E. contradiction.
  - split; [discriminate|]. intros (q & H & _). discriminate.
Qed.

(** X11: A derived ratio is present exactly when both of its operands are present
    and nonzero, and then it is their quotient (times 100 for the two
    percentages): no ratio is ever taken over a zero or missing denominator. *)
Theorem derived_ratios_defined :
  forall q y rev oi ni ta td se cash (v : Q),
    let r := Collector.build_record q y rev oi ni ta td se cash in
    (ebit_margin r = Some v <->
     exists a b, oi = Some a /\ rev = Some b /\ ~ a == 0 /\ ~ b == 0
                 /\ v = a / b * 100)
    /\ (roe r = Some v <->
        exists a b, ni = Some a /\ se = Some b /\ ~ a == 0 /\ ~ b == 0
                    /\ v = a / b * 100)
    /\ (debt_to_equity r = Some v <->
        exists a b, td = Some a /\ se = Some b /\ ~ a == 0 /\ ~ b == 0
                    /\ v = a / b).
Proof.
  intros q y rev oi ni ta td se cash v r. subst r. cbn.
  unfold Collector.both. repeat split.
  - destruct (Py.truthy_opt rev) eqn:Hb; [|discriminate].
    destruct (Py.truthy_opt oi) eqn:Ha; [|discriminate].
    apply truthy_opt_some in Ha, Hb.
    destruct Ha as (a & -> & Ha), Hb as (b & -> & Hb). cbn.
    intros [= <-]. eauto 10.
  - intros (a & b & -> & -> & Ha & Hb & ->).
    rewrite (proj2 (truthy_opt_some (Some a))), (proj2 (truthy_opt_some (Some b)))
      by eauto. reflexivity.
  - destruct (Py.truthy_opt ni) eqn:Ha; [|discriminate].
    destruct (Py.truthy_opt se) eqn:Hb; [|discriminate].
    apply truthy_opt_some in Ha, Hb.
    destruct Ha as (a & -> & Ha), Hb as (b & -> & Hb). cbn.
    intros [= <-]. eauto 10.
  - intros (a & b & -> & -> & Ha & Hb & ->).
    rewrite (proj2 (truthy_opt_some (Some a))), (proj2 (truthy_opt_some (Some b)))
      by eauto. reflexivity.
  - destruct (Py.truthy_opt td) eqn:Ha; [|discriminate].
    destruct (Py.truthy_opt se) eqn:Hb; [|discriminate].
    apply truthy_opt_some in Ha, Hb.
    destruct Ha as (a & -> & Ha), Hb as (b & -> & Hb). cbn.
    intros [= <-]. eauto 10.
  - intros (a & b & -> & -> & Ha & Hb & ->).
    rewrite (proj2 (truthy_opt_some (Some a))), (proj2 (truthy_opt_some (Some b)))
      by eauto. reflexivity.
Qed.

(** ** data_collector.py: the records of get_fundamental_data *)

Lemma quarter_label_ltb (a b : Yahoo.Timestamp) :
  (1 <= Yahoo.ts_month a <= 12)%nat -> (1 <= Yahoo.ts_month b <= 12)%nat ->
  String.ltb (Yahoo.quarter_label a) (Yahoo.quarter_label b)
  = (Yahoo.ts_quarter a <? Yahoo.ts_quarter b)%nat.
Proof.
  destruct a as [ya ma da], b as [yb mb db].
  unfold Yahoo.quarter_label, Yahoo.ts_quarter. cbn [Yahoo.ts_month].
  intros Ha Hb.
  assert (In ma (seq 1 12)) as Hma by (apply in_seq; lia).
  assert (In mb (seq 1 12)) as Hmb by (apply in_seq; lia).
  cbn in Hma, Hmb. clear Ha Hb.
  decompose [or] Hma; try contradiction; subst ma;
    decompose [or] Hmb; try contradiction; subst mb; reflexivity.
Qed.

(** X12: The labels "Q1".."Q4" sort like the quarters they name, so the analyzer's
    key (year, quarter label) orders the collector's records by time. *)
Theorem collector_periods_chronological :
  forall (a b : Yahoo.Timestamp) (ra rb : FundamentalRecord),
    (1 <= Yahoo.ts_month a <= 12)%nat -> (1 <= Yahoo.ts_month b <= 12)%nat ->
    year ra = Yahoo.ts_year a -> quarter ra = Yahoo.quarter_label a ->
    year rb = Yahoo.ts_year b -> quarter rb = Yahoo.quarter_label b ->
    (period_ltb ra rb = true <->
     (Yahoo.ts_year a < Yahoo.ts_year b)%Z
     \/ (Yahoo.ts_year a = Yahoo.ts_year b
         /\ (Yahoo.ts_quarter a < Yahoo.ts_quarter b)%nat)).
Proof.
  intros a b ra rb Ha Hb Hya Hqa Hyb Hqb. unfold period_ltb.
  rewrite Hya, Hyb, Hqa, Hqb, (quarter_label_ltb a b Ha Hb).
  rewrite orb_true_iff, andb_true_iff, Z.ltb_lt, Z.eqb_eq, Nat.ltb_lt. tauto.
Qed.

Lemma ts_eqb_eq (a b : Yahoo.Timestamp) : Yahoo.ts_eqb a b = true <-> a = b.
Proof.
  destruct a as [ya ma da], b as [yb mb db]. unfold Yahoo.ts_eqb. cbn.
  rewrite !andb_true_iff, Z.eqb_eq, !Nat.eqb_eq. split.
  - intros [[-> ->] ->]. reflexivity.
  - intros [= -> -> ->]. auto.
Qed.

Lemma mapM_length {A B} (f : A -> Py.res B) (l : list A) l' :
  Py.mapM f l = Py.Ok l' -> length l' = length l.
Proof.
  revert l'. induction l as [|a l IH]; intros l'; cbn [Py.mapM].
  - now intros [= <-].
  - destruct (f a); cbn [Py.bind]; [|discriminate].
    destruct (Py.mapM f l) as [bs|]; cbn [Py.bind]; [|discriminate].
    intros [= <-]. cbn. now rewrite (IH bs eq_refl).
Qed.

Lemma mapM_ok {A B} (f : A -> Py.res B) (l : list A) :
  (forall a, In a l -> exists b, f a = Py.Ok b) -> exists l', Py.mapM f l = Py.Ok l'.
Proof.
  induction l as [|a l IH]; intros H; [now exists []|].
  destruct (H a (or_introl eq_refl)) as [b Hb].
  destruct IH as [bs Hbs]; [intros; apply H; now right|].
  exists (b :: bs). cbn [Py.mapM]. rewrite Hb. cbn [Py.bind]. now rewrite Hbs.
Qed.

Lemma mapM_raise {A B} (f : A -> Py.res B) (l : list A) a e :
  In a l -> f a = Py.Raise e -> exists e', Py.mapM f l = Py.Raise e'.
Proof.
  induction l as [|x l IH]; intros Hin Ha; [destruct Hin|].
  cbn [Py.mapM]. destruct (f x) as [b|e0] eqn:Hx; cbn [Py.bind]; [|eauto].
  destruct Hin as [->|Hin]; [congruence|].
  destruct (IH Hin Ha) as [e' ->]. cbn [Py.bind]. eauto.
Qed.

Lemma mapM_each {A B} (f : A -> Py.res B) (l : list A) l' :
  Py.mapM f l = Py.Ok l' -> Forall2 (fun a b => f a = Py.Ok b) l l'.
Proof.
  revert l'. induction l as [|a l IH]; intros l'; cbn [Py.mapM].
  - intros [= <-]. constructor.
  - destruct (f a) as [b|] eqn:Hb; cbn [Py.bind]; [|discriminate].
    destruct (Py.mapM f l) as [bs|]; cbn [Py.bind]; [|discriminate].
    intros [= <-]. constructor; [exact Hb|now apply IH].
Qed.

(** A date that labels one column at most selects a Series. *)
Lemma statement_column_one (frame : list (Yahoo.Timestamp * gmap string cell))
    (quarter : Yahoo.Timestamp) :
  NoDup (map fst frame) ->
  exists series, Yahoo.statement_column frame quarter = Yahoo.OneColumn series.
Proof.
  intros Hnd. unfold Yahoo.statement_column.
  assert (forall fr : list (Yahoo.Timestamp * gmap string cell),
            ~ In quarter (map fst fr) ->
            List.filter (fun c => Yahoo.ts_eqb (fst c) quarter) fr = []) as Hnone.
  { induction fr as [|c fr IH]; intros Hq; [reflexivity|]. cbn.
    destruct (Yahoo.ts_eqb c.1 quarter) eqn:E.
    - apply ts_eqb_eq in E. exfalso. apply Hq. now left.
    - apply IH. intros H. apply Hq. now right. }
  assert (length (List.filter (fun c => Yahoo.ts_eqb (fst c) quarter) frame) <= 1)%nat
    as Hlen.
  { induction frame as [|c frame IH]; [cbn; lia|].
    cbn [map] in Hnd. apply NoDup_cons in Hnd. destruct Hnd as [Hc Hnd].
    cbn [List.filter]. destruct (Yahoo.ts_eqb c.1 quarter) eqn:E.
    - apply ts_eqb_eq in E. subst quarter. rewrite Hnone; [cbn; lia|].
      intros H. apply Hc. now apply list_elem_of_In.
    - apply IH, Hnd. }
  destruct (List.filter (fun c => Yahoo.ts_eqb c.1 quarter) frame) as [|c0 [|c1 cs]];
    [eauto | eauto | cbn in Hlen; lia].
Qed.

(** The record built for one column, when none of the seven calls raises. *)
Lemma fundamental_record_labels (fin bal : list (Yahoo.Timestamp * gmap string cell))
    (records : list FundamentalRecord) :
  Yahoo.statement_empty fin = false ->
  Yahoo.fundamental_body fin bal = Py.Ok records ->
  length records = Nat.min 4 (length fin)
  /\ map (fun r => (year r, quarter r)) records
     = map (fun t => (Yahoo.ts_year t, Yahoo.quarter_label t)) (firstn 4 (map fst fin)).
Proof.
  intros Hne. unfold Yahoo.fundamental_body. rewrite Hne. intros Hok. split.
  - rewrite (mapM_length _ _ _ Hok), length_firstn, length_map. reflexivity.
  - apply mapM_each in Hok.
    induction Hok as [|t r ts rs Hr _ IH]; [reflexivity|].
    cbn [map]. rewrite IH. f_equal.
    repeat match type of Hr with
    | Py.bind ?m _ = _ => destruct m; cbn [Py.bind] in Hr; [|discriminate Hr]
    end.
    injection Hr as <-. reflexivity.
Qed.

(** X13: at most four records come back, and none for an empty income
    statement; when no date labels two columns of a statement, there is one
    record per column of the income statement up to the fourth, in the
    provider's order, each with the year and the quarter label of its
    column. *)
Theorem get_fundamental_data_shape :
  forall fin bal : list (Yahoo.Timestamp * gmap string cell),
    (length (Yahoo.get_fundamental_data fin bal) <= 4)%nat
    /\ (Yahoo.statement_empty fin = true -> Yahoo.get_fundamental_data fin bal = [])
    /\ (Yahoo.statement_empty fin = false ->
        NoDup (map fst fin) -> NoDup (map fst bal) ->
        length (Yahoo.get_fundamental_data fin bal) = Nat.min 4 (length fin)
        /\ map (fun r => (year r, quarter r)) (Yahoo.get_fundamental_data fin bal)
           = map (fun t => (Yahoo.ts_year t, Yahoo.quarter_label t))
               (firstn 4 (map fst fin))).
Proof.
  intros fin bal. split; [|split].
  - unfold Yahoo.get_fundamental_data.
    destruct (Yahoo.fundamental_body fin bal) as [records|] eqn:Hbody; [|cbn; lia].
    destruct (Yahoo.statement_empty fin) eqn:Hne.
    + unfold Yahoo.fundamental_body in Hbody. rewrite Hne in Hbody.
      injection Hbody as <-. cbn. lia.
    + destruct (fundamental_record_labels fin bal records Hne Hbody) as [-> _]. lia.
  - intros Hempty. unfold Yahoo.get_fundamental_data, Yahoo.fundamental_body.
    now rewrite Hempty.
  - intros Hne Hfin Hbal.
    assert (exists records, Yahoo.fundamental_body fin bal = Py.Ok records)
      as [records Hbody].
    { unfold Yahoo.fundamental_body. rewrite Hne. apply mapM_ok. intros t _.
      destruct (statement_column_one fin t Hfin) as [income ->].
      destruct (statement_column_one bal t Hbal) as [balance ->].
      cbn. eauto. }
    unfold Yahoo.get_fundamental_data. rewrite Hbody.
    exact (fundamental_record_labels fin bal records Hne Hbody).
Qed.

(** X20: when a date among the first four labels two or more columns of the
    income statement and the statement has a "Total Revenue" row, the lookup
    of that row fails inside the [try] and no record at all comes back. *)
Theorem get_fundamental_data_repeated_date :
  forall (fin bal : list (Yahoo.Timestamp * gmap string cell))
         (quarter : Yahoo.Timestamp),
    In quarter (firstn 4 (map fst fin)) ->
    (2 <= length (List.filter (fun c => Yahoo.ts_eqb (fst c) quarter) fin))%nat ->
    "Total Revenue" ∈ Yahoo.statement_index fin ->
    Yahoo.get_fundamental_data fin bal = [].
Proof.
  intros fin bal quarter Hin Htwice Hrow.
  unfold Yahoo.get_fundamental_data, Yahoo.fundamental_body.
  destruct (Yahoo.statement_empty fin); [reflexivity|].
  match goal with
  | |- match Py.mapM ?f ?l with _ => _ end = _ =>
      destruct (mapM_raise f l quarter Py.KeyError Hin) as [e ->]; [|reflexivity]
  end.
  unfold Yahoo.statement_column at 1.
  destruct (List.filter (fun c => Yahoo.ts_eqb c.1 quarter) fin) as [|c0 [|c1 cs]];
    try (cbn in Htwice; lia).
  cbn [Yahoo.extract_selected Yahoo.revenue_keys existsb].
  rewrite (bool_decide_eq_true_2 _ Hrow). reflexivity.
Qed.

(** ** data_collector.py: the price frame of get_daily_price_data *)

Lemma series_get_app_l (labels l2 : list string) (r r2 : list cell) k c :
  series_get labels r k = Py.Ok c -> series_get (labels ++ l2) (r ++ r2) k = Py.Ok c.
Proof.
  revert r. induction labels as [|x labels IH]; intros [|v r]; cbn; try discriminate.
  destruct (String.eqb x k); [trivial|apply IH].
Qed.

Lemma series_get_app_r (labels l2 : list string) (r r2 : list cell) k :
  existsb (String.eqb k) labels = false -> length r = length labels ->
  series_get (labels ++ l2) (r ++ r2) k = series_get l2 r2 k.
Proof.
  revert r. induction labels as [|x labels IH]; intros [|v r] Hk Hlen;
    try discriminate; [reflexivity|].
  cbn in Hk. apply orb_false_iff in Hk. destruct Hk as [Hx Hk]. cbn.
  rewrite String.eqb_sym, Hx. apply IH; [exact Hk|]. cbn in Hlen. lia.
Qed.

Lemma series_get_present (labels : list string) (r : list cell) k :
  existsb (String.eqb k) labels = true -> length r = length labels ->
  exists c, series_get labels r k = Py.Ok c.
Proof.
  revert r. induction labels as [|x labels IH]; intros [|v r] Hk Hlen;
    try discriminate.
  cbn in *. rewrite String.eqb_sym. destruct (String.eqb k x); [eauto|].
  apply IH; [exact Hk|lia].
Qed.

Lemma set_cell_fresh (labels : list string) (r : list cell) name v :
  existsb (String.eqb name) labels = false -> length r = length labels ->
  Yahoo.set_cell labels r name v = r ++ [v].
Proof.
  revert r. induction labels as [|x labels IH]; intros [|y r] Hk Hlen;
    try discriminate; [reflexivity|].
  cbn in Hk. apply orb_false_iff in Hk. destruct Hk as [Hx Hk]. cbn.
  rewrite String.eqb_sym, Hx. f_equal. apply IH; [exact Hk|]. cbn in Hlen. lia.
Qed.

Lemma rectangular_rows (df : DataFrame) :
  Yahoo.rectangular df = true <->
  Forall (fun r => length r = length (columns df)) (rows df).
Proof.
  unfold Yahoo.rectangular. rewrite forallb_forall, List.Forall_forall.
  split; intros H r Hr; specialize (H r Hr); now apply Nat.eqb_eq.
Qed.

(** Adding a column under a new name puts one more cell at the end of every
    row. *)
Lemma set_column_fresh (df : DataFrame) name vals :
  Yahoo.rectangular df = true -> Yahoo.has_column df name = false ->
  Yahoo.set_column df name vals
  = {| columns := columns df ++ [name];
       rows := zip_with (fun r v => r ++ [v]) (rows df) vals |}.
Proof.
  intros Hrect Hfresh. unfold Yahoo.set_column. rewrite Hfresh. f_equal.
  apply rectangular_rows in Hrect. unfold Yahoo.has_column in Hfresh.
  revert vals. induction Hrect as [|r rs Hr _ IH]; intros [|v vals];
    try reflexivity.
  cbn [zip_with]. rewrite set_cell_fresh by assumption. f_equal. apply IH.
Qed.

Lemma rectangular_append (cols : list string) (rs : list (list cell)) name vals :
  Forall (fun r => length r = length cols) rs ->
  Forall (fun r => length r = length (cols ++ [name]))
         (zip_with (fun r v => r ++ [v]) rs vals).
Proof.
  intros H. revert vals. induction H as [|r rs Hr _ IH]; intros [|v vals];
    cbn [zip_with]; try constructor.
  - rewrite !length_app, Hr. reflexivity.
  - apply IH.
Qed.

Lemma column_ok (df : DataFrame) k :
  Yahoo.rectangular df = true -> Yahoo.has_column df k = true ->
  exists cs, Yahoo.column df k = Py.Ok cs /\ length cs = length (rows df).
Proof.
  intros Hrect Hk. unfold Yahoo.column. rewrite Hk.
  apply rectangular_rows in Hrect. unfold Yahoo.has_column in Hk.
  induction Hrect as [|r rs Hr _ (cs & Hcs & Hlen)]; [exists []; split; reflexivity|].
  destruct (series_get_present _ r k Hk Hr) as [c Hc].
  exists (c :: cs). cbn [Py.mapM]. rewrite Hc. cbn [Py.bind]. rewrite Hcs.
  cbn. split; [reflexivity|now rewrite Hlen].
Qed.

(** A column that was there reads the same after another one is added. *)
Lemma column_after_append (cols : list string) (rs : list (list cell)) name vals k cs :
  length vals = length rs ->
  Yahoo.column {| columns := cols; rows := rs |} k = Py.Ok cs ->
  Yahoo.column {| columns := cols ++ [name];
                  rows := zip_with (fun r v => r ++ [v]) rs vals |} k = Py.Ok cs.
Proof.
  unfold Yahoo.column, Yahoo.has_column. cbn [columns rows].
  rewrite existsb_app. destruct (existsb (String.eqb k) cols); [|discriminate].
  cbn [orb]. revert vals cs.
  induction rs as [|r rs IH]; intros [|v vals] cs Hlen; try discriminate;
    [trivial|].
  cbn [Py.mapM zip_with].
  destruct (series_get cols r k) as [c|] eqn:Hc; cbn [Py.bind]; [|discriminate].
  rewrite (series_get_app_l _ _ _ _ _ _ Hc). cbn [Py.bind].
  destruct (Py.mapM _ rs) as [cs'|] eqn:Hcs; cbn [Py.bind]; [|discriminate].
  intros [= <-]. rewrite (IH vals cs'); [reflexivity| |reflexivity].
  cbn in Hlen. lia.
Qed.

Lemma rolling_from_length (w : nat) (seen rest : list cell) :
  length (Yahoo.rolling_from w seen rest) = length rest.
Proof.
  revert seen. induction rest as [|c rest IH]; intros seen; cbn; [reflexivity|].
  now rewrite IH.
Qed.

Lemma forallb_skipn {A} (p : A -> bool) (n : nat) (l : list A) :
  forallb p l = true -> forallb p (skipn n l) = true.
Proof.
  revert n. induction l as [|x l IH]; intros [|n] H; cbn in *; try assumption.
  apply andb_true_iff in H. now apply IH.
Qed.

(** A window without gaps contains every shorter window without gaps. *)
Lemma window_mean_shorter (w1 w2 : nat) (seen : list cell) :
  (w1 <= w2)%nat ->
  notna (Yahoo.window_mean w2 seen) = true ->
  notna (Yahoo.window_mean w1 seen) = true.
Proof.
  intros Hw. unfold Yahoo.window_mean.
  destruct (Nat.ltb_spec (length seen) w2) as [|H2]; [discriminate|].
  destruct (Nat.ltb_spec (length seen) w1) as [|H1]; [lia|].
  destruct (forallb notna (skipn (length seen - w2) seen)) eqn:E; [|discriminate].
  intros _.
  replace (length seen - w1)%nat with ((w2 - w1) + (length seen - w2))%nat by lia.
  rewrite <- skipn_skipn, (forallb_skipn _ _ _ E). reflexivity.
Qed.

Lemma rolling_from_shorter (w1 w2 : nat) (seen rest : list cell) :
  (w1 <= w2)%nat ->
  Forall2 (fun c2 c1 => notna c2 = true -> notna c1 = true)
          (Yahoo.rolling_from w2 seen rest) (Yahoo.rolling_from w1 seen rest).
Proof.
  intros Hw. revert seen. induction rest as [|c rest IH]; intros seen; cbn.
  - constructor.
  - constructor; [now apply window_mean_shorter | apply IH].
Qed.

(** The first [w - 1] rolling means are NaN. *)
Lemma rolling_from_present (w : nat) (seen rest : list cell) :
  (length (List.filter notna (Yahoo.rolling_from w seen rest)) <= length rest)%nat
  /\ (length (List.filter notna (Yahoo.rolling_from w seen rest))
      <= length seen + length rest - (w - 1))%nat.
Proof.
  revert seen. induction rest as [|c rest IH]; intros seen; cbn [Yahoo.rolling_from].
  - cbn. lia.
  - destruct (IH (seen ++ [c])) as [IH1 IH2]. rewrite length_app in IH2.
    cbn [length] in *. cbn [List.filter].
    destruct (notna (Yahoo.window_mean w (seen ++ [c]))) eqn:E; cbn [length].
    + unfold Yahoo.window_mean in E. rewrite length_app in E. cbn [length] in E.
      destruct (Nat.ltb_spec (length seen + 1) w); [discriminate|]. lia.
    + lia.
Qed.

(** The three cells added to a row are found under their labels. *)
Lemma ma_cells (cols : list string) (r : list cell) (a b c : cell) :
  length r = length cols ->
  existsb (String.eqb "MA_20") cols = false ->
  existsb (String.eqb "MA_50") cols = false ->
  existsb (String.eqb "MA_200") cols = false ->
  series_get (((cols ++ ["MA_20"]) ++ ["MA_50"]) ++ ["MA_200"])
             (((r ++ [a]) ++ [b]) ++ [c]) "MA_20" = Py.Ok a
  /\ series_get (((cols ++ ["MA_20"]) ++ ["MA_50"]) ++ ["MA_200"])
                (((r ++ [a]) ++ [b]) ++ [c]) "MA_50" = Py.Ok b
  /\ series_get (((cols ++ ["MA_20"]) ++ ["MA_50"]) ++ ["MA_200"])
                (((r ++ [a]) ++ [b]) ++ [c]) "MA_200" = Py.Ok c.
Proof.
  intros Hlen H20 H50 H200. repeat split.
  - do 2 apply series_get_app_l. now rewrite series_get_app_r.
  - apply series_get_app_l. rewrite series_get_app_r; [reflexivity| |].
    + rewrite existsb_app, H50. reflexivity.
    + rewrite !length_app, Hlen. reflexivity.
  - rewrite series_get_app_r; [reflexivity| |].
    + rewrite !existsb_app, H200. reflexivity.
    + rewrite !length_app, Hlen. reflexivity.
Qed.

(** The rows that survive [dropna]: as many as there are 200-day averages,
    each with all three averages in place. *)
Lemma price_rows (cols : list string) (rs : list (list cell)) (m20 m50 m200 : list cell) :
  Forall (fun r => length r = length cols) rs ->
  existsb (String.eqb "MA_20") cols = false ->
  existsb (String.eqb "MA_50") cols = false ->
  existsb (String.eqb "MA_200") cols = false ->
  length m200 = length rs ->
  Forall2 (fun c2 c1 => notna c2 = true -> notna c1 = true) m200 m20 ->
  Forall2 (fun c2 c1 => notna c2 = true -> notna c1 = true) m200 m50 ->
  Forall (fun r => exists a b c,
            series_get (((cols ++ ["MA_20"]) ++ ["MA_50"]) ++ ["MA_200"]) r "MA_20"
            = Py.Ok (CNum a)
            /\ series_get (((cols ++ ["MA_20"]) ++ ["MA_50"]) ++ ["MA_200"]) r "MA_50"
               = Py.Ok (CNum b)
            /\ series_get (((cols ++ ["MA_20"]) ++ ["MA_50"]) ++ ["MA_200"]) r "MA_200"
               = Py.Ok (CNum c))
         (List.filter
            (Yahoo.row_notna (((cols ++ ["MA_20"]) ++ ["MA_50"]) ++ ["MA_200"]) "MA_200")
            (zip_with (fun r v => r ++ [v])
               (zip_with (fun r v => r ++ [v])
                  (zip_with (fun r v => r ++ [v]) rs m20) m50) m200))
  /\ length (List.filter
               (Yahoo.row_notna (((cols ++ ["MA_20"]) ++ ["MA_50"]) ++ ["MA_200"]) "MA_200")
               (zip_with (fun r v => r ++ [v])
                  (zip_with (fun r v => r ++ [v])
                     (zip_with (fun r v => r ++ [v]) rs m20) m50) m200))
     = length (List.filter notna m200).
Proof.
  intros Hrect H20 H50 H200. revert m20 m50 m200.
  induction Hrect as [|r rs Hr _ IH]; intros m20 m50 m200 Hlen F20 F50.
  - destruct m200; [|discriminate]. split; [constructor|reflexivity].
  - destruct m200 as [|c m200]; [discriminate|].
    inversion F20 as [|? a ? m20' Ha F20']; subst.
    inversion F50 as [|? b ? m50' Hb F50']; subst.
    cbn [zip_with List.filter].
    destruct (ma_cells cols r a b c Hr H20 H50 H200) as (E20 & E50 & E200).
    assert (Yahoo.row_notna (((cols ++ ["MA_20"]) ++ ["MA_50"]) ++ ["MA_200"])
              "MA_200" (((r ++ [a]) ++ [b]) ++ [c]) = notna c) as ->
      by (unfold Yahoo.row_notna; now rewrite E200).
    destruct (IH m20' m50' m200) as [IHall IHlen]; [cbn in Hlen; lia|assumption..|].
    destruct (notna c) eqn:Hc.
    + split; [|cbn [length]; now rewrite IHlen].
      constructor; [|exact IHall].
      specialize (Ha eq_refl). specialize (Hb eq_refl).
      destruct a as [qa|]; [|discriminate]. destruct b as [qb|]; [|discriminate].
      destruct c as [qc|]; [|discriminate]. eauto 7.
    + split; [exact IHall | exact IHlen].
Qed.

Lemma has_column_append (cols : list string) (rs rs' : list (list cell)) name k :
  Yahoo.has_column {| columns := cols ++ [name]; rows := rs |} k
  = Yahoo.has_column {| columns := cols; rows := rs' |} k || String.eqb k name.
Proof.
  unfold Yahoo.has_column. cbn [columns]. rewrite existsb_app. cbn.
  now rewrite orb_false_r.
Qed.

(** What [get_daily_price_data] returns: the empty frame, or the history
    with the three averages added and the rows without a 200-day average
    dropped. *)
Lemma price_frame (hist : DataFrame) :
  Yahoo.rectangular hist = true -> Yahoo.fresh_ma_names hist = true ->
  (Yahoo.get_daily_price_data hist = Py.Ok Yahoo.empty_frame
   /\ (empty hist = true \/ Yahoo.has_column hist "Close" = false))
  \/ exists close,
       empty hist = false
       /\ Yahoo.column hist "Close" = Py.Ok close
       /\ length close = length (rows hist)
       /\ Yahoo.get_daily_price_data hist
          = Py.Ok {| columns := ((columns hist ++ ["MA_20"]) ++ ["MA_50"]) ++ ["MA_200"];
                     rows :=
                       List.filter
                         (Yahoo.row_notna
                            (((columns hist ++ ["MA_20"]) ++ ["MA_50"]) ++ ["MA_200"])
                            "MA_200")
                         (zip_with (fun r v => r ++ [v])
                            (zip_with (fun r v => r ++ [v])
                               (zip_with (fun r v => r ++ [v]) (rows hist)
                                  (Yahoo.rolling_mean 20 close))
                               (Yahoo.rolling_mean 50 close))
                            (Yahoo.rolling_mean 200 close)) |}.
Proof.
  intros Hrect Hfresh. unfold Yahoo.get_daily_price_data.
  destruct (empty hist) eqn:Hempty; [left; split; [reflexivity|now left]|].
  destruct (Yahoo.has_column hist "Close") eqn:HC.
  2:{ left. unfold Yahoo.column. rewrite HC. split; [reflexivity|now right]. }
  right. destruct (column_ok hist "Close" Hrect HC) as (close & Hclose & Hlen).
  exists close. split; [reflexivity|]. split; [exact Hclose|]. split; [exact Hlen|].
  unfold Yahoo.fresh_ma_names in Hfresh.
  apply andb_true_iff in Hfresh. destruct Hfresh as [Hfresh H200].
  apply andb_true_iff in Hfresh. destruct Hfresh as [H20 H50].
  apply negb_true_iff in H20, H50, H200.
  destruct hist as [cols rs]. cbn [columns rows] in *.
  pose proof (proj1 (rectangular_rows _) Hrect) as Hrows. cbn [columns rows] in Hrows.
  rewrite Hclose. cbn [Py.bind].
  (* MA_20 *)
  rewrite (set_column_fresh _ "MA_20" _ Hrect H20). cbn [columns rows].
  assert (length (Yahoo.rolling_mean 20 close) = length rs) as L20
    by (unfold Yahoo.rolling_mean; now rewrite rolling_from_length).
  rewrite (column_after_append cols rs "MA_20" _ "Close" close L20 Hclose).
  cbn [Py.bind].
  pose proof (rectangular_append cols rs "MA_20" (Yahoo.rolling_mean 20 close) Hrows)
    as Hrows1.
  (* MA_50 *)
  rewrite set_column_fresh; cbn [columns rows].
  2:{ apply rectangular_rows. exact Hrows1. }
  2:{ rewrite (has_column_append cols _ rs), H50. reflexivity. }
  assert (length (Yahoo.rolling_mean 50 close)
          = length (zip_with (fun r v => r ++ [v]) rs (Yahoo.rolling_mean 20 close)))
    as L50.
  { rewrite length_zip_with, L20. unfold Yahoo.rolling_mean.
    rewrite rolling_from_length. lia. }
  rewrite (column_after_append _ _ "MA_50" _ "Close" close L50
             (column_after_append cols rs "MA_20" _ "Close" close L20 Hclose)).
  cbn [Py.bind].
  pose proof (rectangular_append _ _ "MA_50" (Yahoo.rolling_mean 50 close) Hrows1)
    as Hrows2.
  (* MA_200 *)
  rewrite set_column_fresh; cbn [columns rows].
  2:{ apply rectangular_rows. exact Hrows2. }
  2:{ rewrite (has_column_append (cols ++ ["MA_20"]) _
                 (zip_with (fun r v => r ++ [v]) rs (Yahoo.rolling_mean 20 close))),
        (has_column_append cols _ rs), H200. reflexivity. }
  unfold Yahoo.dropna.
  rewrite (has_column_append ((cols ++ ["MA_20"]) ++ ["MA_50"]) _ []).
  rewrite String.eqb_refl, orb_true_r. reflexivity.
Qed.

Lemma price_frame_facts (hist : DataFrame) :
  Yahoo.rectangular hist = true -> Yahoo.fresh_ma_names hist = true ->
  exists out,
    Yahoo.get_daily_price_data hist = Py.Ok out
    /\ (length (rows out) <= length (rows hist) - 199)%nat
    /\ Forall (fun r => exists a b c,
                 series_get (columns out) r "MA_20" = Py.Ok (CNum a)
                 /\ series_get (columns out) r "MA_50" = Py.Ok (CNum b)
                 /\ series_get (columns out) r "MA_200" = Py.Ok (CNum c))
              (rows out).
Proof.
  intros Hrect Hfresh.
  destruct (price_frame hist Hrect Hfresh)
    as [[Hout _] | (close & _ & _ & Hlen & Hout)].
  - exists Yahoo.empty_frame. split; [exact Hout|]. cbn. split; [lia|constructor].
  - eexists. split; [exact Hout|]. cbn [columns rows].
    unfold Yahoo.fresh_ma_names, Yahoo.has_column in Hfresh.
    apply andb_true_iff in Hfresh. destruct Hfresh as [Hfresh H200].
    apply andb_true_iff in Hfresh. destruct Hfresh as [H20 H50].
    apply negb_true_iff in H20, H50, H200.
    destruct (price_rows (columns hist) (rows hist)
                (Yahoo.rolling_mean 20 close) (Yahoo.rolling_mean 50 close)
                (Yahoo.rolling_mean 200 close)) as [Hall Hcount];
      try assumption.
    + now apply rectangular_rows.
    + unfold Yahoo.rolling_mean. now rewrite rolling_from_length.
    + apply rolling_from_shorter. lia.
    + apply rolling_from_shorter. lia.
    + split; [|exact Hall]. rewrite Hcount.
      destruct (rolling_from_present 200 [] close) as [_ H]. cbn in H.
      unfold Yahoo.rolling_mean. lia.
Qed.

Lemma ma_rows_have_columns (out : DataFrame) :
  Forall (fun r => exists a b c,
            series_get (columns out) r "MA_20" = Py.Ok (CNum a)
            /\ series_get (columns out) r "MA_50" = Py.Ok (CNum b)
            /\ series_get (columns out) r "MA_200" = Py.Ok (CNum c))
         (rows out) ->
  has_ma_columns out = true.
Proof.
  intros H. unfold has_ma_columns. apply forallb_forall. intros r Hr.
  rewrite List.Forall_forall in H.
  destruct (H r Hr) as (a & b & c & -> & -> & ->). reflexivity.
Qed.

(** X14: Every row of the price frame carries a 20-, a 50- and a 200-day average:
    none of them is NaN, so the analyzer's lookups cannot fail on it. *)
Theorem price_frame_averages_present :
  forall hist : DataFrame,
    Yahoo.rectangular hist = true -> Yahoo.fresh_ma_names hist = true ->
    exists out,
      Yahoo.get_daily_price_data hist = Py.Ok out
      /\ has_ma_columns out = true
      /\ forall r, In r (rows out) ->
           exists a b c,
             series_get (columns out) r "MA_20" = Py.Ok (CNum a)
             /\ series_get (columns out) r "MA_50" = Py.Ok (CNum b)
             /\ series_get (columns out) r "MA_200" = Py.Ok (CNum c).
Proof.
  intros hist Hrect Hfresh.
  destruct (price_frame_facts hist Hrect Hfresh) as (out & Hout & _ & Hall).
  exists out. split; [exact Hout|]. split; [now apply ma_rows_have_columns|].
  now apply List.Forall_forall.
Qed.

(** X15: The first 199 days of a history yield no row; a history of fewer than
    200 days yields an empty frame, on which the technical analysis
    degrades. *)
Theorem price_frame_needs_200_days :
  forall (hist : DataFrame) (price : option Q),
    Yahoo.rectangular hist = true -> Yahoo.fresh_ma_names hist = true ->
    exists out,
      Yahoo.get_daily_price_data hist = Py.Ok out
      /\ (length (rows out) <= length (rows hist) - 199)%nat
      /\ ((length (rows hist) < 200)%nat ->
          rows out = []
          /\ analyze_technical_indicators out price = Py.Ok degraded).
Proof.
  intros hist price Hrect Hfresh.
  destruct (price_frame_facts hist Hrect Hfresh) as (out & Hout & Hlen & _).
  exists out. split; [exact Hout|]. split; [exact Hlen|].
  intros Hshort. assert (rows out = []) as Hnil.
  { destruct (rows out); [reflexivity|]. cbn in Hlen. lia. }
  split; [exact Hnil|].
  unfold analyze_technical_indicators, empty, len. rewrite Hnil. reflexivity.
Qed.

(** X16: On a price frame with at least one row and with a current price, the
    analysis reports all three averages; without rows it degrades. *)
Theorem price_frame_analysis :
  forall (hist out : DataFrame) (price : Q),
    Yahoo.rectangular hist = true -> Yahoo.fresh_ma_names hist = true ->
    Yahoo.get_daily_price_data hist = Py.Ok out ->
    exists ta,
      analyze_technical_indicators out (Some price) = Py.Ok ta
      /\ (rows out = [] -> ta = degraded)
      /\ (rows out <> [] ->
          technical_body out price = Py.Ok ta
          /\ exists a b c,
               ma_20 ta = Some a /\ ma_50 ta = Some b /\ ma_200 ta = Some c).
Proof.
  intros hist out price Hrect Hfresh Hout.
  destruct (price_frame_facts hist Hrect Hfresh) as (out' & Hout' & _ & Hall).
  rewrite Hout in Hout'. injection Hout' as <-.
  pose proof (ma_rows_have_columns out Hall) as Hcols.
  assert (rows out = [] \/ rows out <> []) as [Hrows|Hrows]
    by (destruct (rows out); [left|right]; congruence).
  - exists degraded. unfold analyze_technical_indicators, empty, len.
    rewrite Hrows. split; [reflexivity|]. split; [reflexivity|contradiction].
  - assert (1 <= len out)%nat as Hlen.
    { unfold len. destruct (rows out); [contradiction|cbn; lia]. }
    destruct (technical_body_returns out price Hcols Hlen) as [ta Hta].
    exists ta. unfold analyze_technical_indicators.
    rewrite (has_ma_columns_not_empty out Hcols Hlen), Hta.
    split; [reflexivity|]. split; [intros H; contradiction|]. intros _.
    split; [reflexivity|].
    destruct (technical_body_fields out price ta Hta)
      as (c20 & c50 & c200 & H20 & H50 & H200 & -> & -> & -> & _).
    assert (forall name c, cell_from_end out 1 name = Some c ->
              exists r, In r (rows out) /\ series_get (columns out) r name = Py.Ok c)
      as Hcell.
    { intros name c. unfold cell_from_end.
      destruct (iloc_neg out 1) as [s|] eqn:Es; [|discriminate].
      destruct (iloc_neg_ok _ _ _ Es) as [Hfst Hin].
      unfold getitem. rewrite Hfst.
      destruct (series_get (columns out) s.2 name) as [c'|] eqn:Ec; [|discriminate].
      intros [= <-]. eauto. }
    rewrite List.Forall_forall in Hall.
    destruct (Hcell _ _ H20) as (r1 & Hr1 & E1).
    destruct (Hcell _ _ H50) as (r2 & Hr2 & E2).
    destruct (Hcell _ _ H200) as (r3 & Hr3 & E3).
    destruct (Hall r1 Hr1) as (a & _ & _ & Ea & _).
    destruct (Hall r2 Hr2) as (_ & b & _ & _ & Eb & _).
    destruct (Hall r3 Hr3) as (_ & _ & c & _ & _ & Ec).
    rewrite E1 in Ea. rewrite E2 in Eb. rewrite E3 in Ec.
    injection Ea as ->. injection Eb as ->. injection Ec as ->.
    cbn [round_cell]. do 3 eexists. repeat split; reflexivity.
Qed.

Lemma rolling_from_app (w : nat) (seen l1 l2 : list cell) :
  Yahoo.rolling_from w seen (l1 ++ l2)
  = Yahoo.rolling_from w seen l1 ++ Yahoo.rolling_from w (seen ++ l1) l2.
Proof.
  revert seen. induction l1 as [|c l1 IH]; intros seen; cbn.
  - now rewrite app_nil_r.
  - rewrite IH, <- app_assoc. reflexivity.
Qed.

Lemma rolling_mean_snoc (w : nat) (cells : list cell) (c : cell) :
  Yahoo.rolling_mean w (cells ++ [c])
  = Yahoo.rolling_mean w cells ++ [Yahoo.window_mean w (cells ++ [c])].
Proof. unfold Yahoo.rolling_mean. rewrite rolling_from_app. reflexivity. Qed.

(** With the last 200 closes in place, the window of any length up to 200
    is full and its mean is the mean of the trailing closes. *)
Lemma window_mean_full (w : nat) (close : list cell) :
  (w <= 200)%nat -> (200 <= length close)%nat ->
  forallb notna (skipn (length close - 200) close) = true ->
  Yahoo.window_mean w close = CNum (mean (Yahoo.trailing w close)).
Proof.
  intros Hw Hlen Hall. unfold Yahoo.window_mean, Yahoo.trailing.
  destruct (Nat.ltb_spec (length close) w); [lia|].
  replace (length close - w)%nat with ((200 - w) + (length close - 200))%nat by lia.
  rewrite <- skipn_skipn, (forallb_skipn _ _ _ Hall). reflexivity.
Qed.

Lemma column_length (df : DataFrame) k cs :
  Yahoo.column df k = Py.Ok cs ->
  Yahoo.has_column df k = true /\ length cs = length (rows df).
Proof.
  unfold Yahoo.column. destruct (Yahoo.has_column df k); [|discriminate].
  intros H. split; [reflexivity|]. revert cs H.
  induction (rows df) as [|r rs IH]; intros cs; cbn [Py.mapM].
  - now intros [= <-].
  - destruct (series_get (columns df) r k); cbn [Py.bind]; [|discriminate].
    destruct (Py.mapM _ rs) as [cs'|]; cbn [Py.bind]; [|discriminate].
    intros [= <-]. cbn. now rewrite (IH cs' eq_refl).
Qed.

Lemma cell_from_end_last (df : DataFrame) (pre : list (list cell)) (r : list cell) name :
  rows df = pre ++ [r] ->
  cell_from_end df 1 name
  = match series_get (columns df) r name with
    | Py.Ok c => Some c
    | Py.Raise _ => None
    end.
Proof.
  intros Hrows. unfold cell_from_end, iloc_neg, len. rewrite Hrows, length_app.
  cbn [length]. destruct (Nat.leb_spec 1 (length pre + 1)); [|lia].
  replace (length pre + 1 - 1)%nat with (length pre + 0)%nat by lia.
  rewrite nth_error_app2 by lia.
  replace (length pre + 0 - length pre)%nat with 0%nat by lia. cbn [nth_error].
  unfold getitem. cbn [fst snd]. reflexivity.
Qed.

(** X17: The averages of the latest row are the means of the last 20, 50 and 200
    closing prices. *)
Theorem latest_averages_are_trailing_means :
  forall (hist : DataFrame) (close : list cell),
    Yahoo.rectangular hist = true -> Yahoo.fresh_ma_names hist = true ->
    Yahoo.column hist "Close" = Py.Ok close ->
    (200 <= length close)%nat ->
    forallb notna (skipn (length close - 200) close) = true ->
    exists out,
      Yahoo.get_daily_price_data hist = Py.Ok out
      /\ cell_from_end out 1 "MA_20" = Some (CNum (mean (Yahoo.trailing 20 close)))
      /\ cell_from_end out 1 "MA_50" = Some (CNum (mean (Yahoo.trailing 50 close)))
      /\ cell_from_end out 1 "MA_200" = Some (CNum (mean (Yahoo.trailing 200 close))).
Proof.
  intros hist close Hrect Hfresh Hclose Hlen Hall.
  destruct (column_length _ _ _ Hclose) as [HC Hrows].
  assert (1 <= length (columns hist))%nat as Hcols.
  { unfold Yahoo.has_column in HC. destruct (columns hist); [discriminate|cbn; lia]. }
  destruct (price_frame hist Hrect Hfresh)
    as [[_ [Hempty|Hno]] | (close' & _ & Hclose' & _ & Hout)].
  - exfalso. unfold empty, len in Hempty. apply orb_true_iff in Hempty.
    destruct Hempty as [H|H]; apply Nat.eqb_eq in H; lia.
  - congruence.
  - rewrite Hclose in Hclose'. injection Hclose' as <-.
    eexists. split; [exact Hout|].
    pose proof (proj1 (rectangular_rows _) Hrect) as Hwf.
    unfold Yahoo.fresh_ma_names, Yahoo.has_column in Hfresh.
    apply andb_true_iff in Hfresh. destruct Hfresh as [Hfresh H200].
    apply andb_true_iff in Hfresh. destruct Hfresh as [H20 H50].
    apply negb_true_iff in H20, H50, H200.
    assert (rows hist <> []) as Hne1 by (intros E; rewrite E in Hrows; cbn in Hrows; lia).
    assert (close <> []) as Hne2 by (intros E; rewrite E in Hlen; cbn in Hlen; lia).
    destruct (exists_last Hne1) as (l & x & Ers).
    destruct (exists_last Hne2) as (close0 & x0 & Ecl).
    clear Hne1 Hne2. rewrite Ers in *. subst close. rename close0 into close.
    rewrite !length_app in Hrows. cbn [length] in Hrows.
    assert (length l = length close) as Hl by lia.
    rewrite !rolling_mean_snoc.
    rewrite (window_mean_full 20), (window_mean_full 50), (window_mean_full 200)
      by (assumption || lia).
    assert (forall w, length (Yahoo.rolling_mean w close) = length l) as Hm.
    { intros w. unfold Yahoo.rolling_mean. rewrite rolling_from_length. lia. }
    rewrite (zip_with_app _ l _ (Yahoo.rolling_mean 20 close)) by now rewrite Hm.
    rewrite (zip_with_app _ _ _ (Yahoo.rolling_mean 50 close))
      by now rewrite length_zip_with, !Hm, Nat.min_id.
    rewrite (zip_with_app _ _ _ (Yahoo.rolling_mean 200 close))
      by now rewrite !length_zip_with, !Hm, !Nat.min_id.
    cbn [zip_with]. rewrite List.filter_app. cbn [List.filter].
    apply List.Forall_app in Hwf. destruct Hwf as [_ Hx].
    apply List.Forall_cons_iff in Hx. destruct Hx as [Hx _].
    destruct (ma_cells (columns hist) x
                (CNum (mean (Yahoo.trailing 20 (close ++ [x0]))))
                (CNum (mean (Yahoo.trailing 50 (close ++ [x0]))))
                (CNum (mean (Yahoo.trailing 200 (close ++ [x0]))))
                Hx H20 H50 H200) as (E20 & E50 & E200).
    assert (Yahoo.row_notna
              (((columns hist ++ ["MA_20"]) ++ ["MA_50"]) ++ ["MA_200"]) "MA_200"
              (((x ++ [CNum (mean (Yahoo.trailing 20 (close ++ [x0])))])
                ++ [CNum (mean (Yahoo.trailing 50 (close ++ [x0])))])
               ++ [CNum (mean (Yahoo.trailing 200 (close ++ [x0])))]) = true) as Hkeep
      by (unfold Yahoo.row_notna; now rewrite E200).
    rewrite Hkeep.
    repeat split;
      erewrite cell_from_end_last by (cbn [rows]; reflexivity);
      cbn [columns]; [rewrite E20 | rewrite E50 | rewrite E200]; reflexivity.
Qed.

(** ** analyze_technical_indicators: the sign of a deviation *)

Lemma pct_sign (x b : Q) :
  0 < b ->
  (0 <= x -> 0 <= Py.round2 (x / b * 100))
  /\ (x <= 0 -> Py.round2 (x / b * 100) <= 0).
Proof.
  intros Hb.
  assert (forall y, 0 <= y -> 0 <= y / b * 100) as Hnonneg.
  { intros y Hy. apply Qmult_le_0_compat; [|discriminate].
    apply Qle_shift_div_l; [exact Hb|]. now rewrite Qmult_0_l. }
  split; intros Hx.
  - apply Qle_trans with (Py.round2 0); [discriminate|].
    apply round2_mono, Hnonneg, Hx.
  - apply Qle_trans with (Py.round2 0); [|discriminate].
    apply round2_mono.
    assert (x / b * 100 == - ((- x) / b * 100)) as E
      by (field; intros E; rewrite E in Hb; discriminate).
    rewrite E. pose proof (Hnonneg (- x)) as H. lra.
Qed.

Lemma deviation_sign (p m : Q) :
  0 < m -> ~ p == m ->
  exists d,
    round_if_truthy (if notna (CNum m) then Some (pct_dev p (CNum m)) else None)
    = Some (Fin d)
    /\ (m <= p -> 0 <= d) /\ (p <= m -> d <= 0).
Proof.
  intros Hm Hp. rewrite deviation_of_number; [|intros E; rewrite E in Hm; discriminate|exact Hp].
  eexists. split; [reflexivity|].
  destruct (pct_sign (p - m) m Hm) as [Hpos Hneg].
  split; intros H; [apply Hpos | apply Hneg]; lra.
Qed.

(** X18: On a frame with the three columns, a price that differs from a positive
    average gets a deviation that is a finite number with the sign of
    price - average. *)
Theorem price_deviation_sign :
  forall (df : DataFrame) (price : Q) (ta : TechnicalAnalysis),
    has_ma_columns df = true -> (1 <= len df)%nat ->
    analyze_technical_indicators df (Some price) = Py.Ok ta ->
    (forall m, cell_from_end df 1 "MA_20" = Some (CNum m) -> 0 < m -> ~ price == m ->
       exists d, price_vs_ma20 ta = Some (Fin d)
                 /\ (m <= price -> 0 <= d) /\ (price <= m -> d <= 0))
    /\ (forall m, cell_from_end df 1 "MA_50" = Some (CNum m) -> 0 < m -> ~ price == m ->
          exists d, price_vs_ma50 ta = Some (Fin d)
                    /\ (m <= price -> 0 <= d) /\ (price <= m -> d <= 0))
    /\ (forall m, cell_from_end df 1 "MA_200" = Some (CNum m) -> 0 < m -> ~ price == m ->
          exists d, price_vs_ma200 ta = Some (Fin d)
                    /\ (m <= price -> 0 <= d) /\ (price <= m -> d <= 0)).
Proof.
  intros df price ta Hcols Hlen Hta. unfold analyze_technical_indicators in Hta.
  rewrite (has_ma_columns_not_empty df Hcols Hlen) in Hta.
  destruct (technical_body_returns df price Hcols Hlen) as [ta' Hbody].
  rewrite Hbody in Hta. cbn in Hta. injection Hta as <-.
  destruct (technical_body_fields df price ta' Hbody)
    as (c20 & c50 & c200 & H20 & H50 & H200 & _ & _ & _ & -> & -> & ->).
  repeat split; intros m Hm Hpos Hne.
  - rewrite H20 in Hm. injection Hm as ->. now apply deviation_sign.
  - rewrite H50 in Hm. injection Hm as ->. now apply deviation_sign.
  - rewrite H200 in Hm. injection Hm as ->. now apply deviation_sign.
Qed.

(** ** calculate_revenue_growth: which records are compared, and when the
    result is absent *)

(** In the descending order a later record is not newer than an earlier one:
    its year is not greater, and within a year its quarter label is not
    greater. *)
Lemma not_below_period (a b : FundamentalRecord) :
  Py.not_below period_ltb a b ->
  (year b <= year a)%Z
  /\ (year a = year b -> String.leb (quarter b) (quarter a) = true).
Proof.
  unfold Py.not_below, period_ltb. intros H.
  apply orb_false_iff in H. destruct H as [Hy Hq]. apply Z.ltb_ge in Hy.
  split; [exact Hy|]. intros E. rewrite E, Z.eqb_refl in Hq. cbn [andb] in Hq.
  unfold String.ltb in Hq. unfold String.leb.
  rewrite String.compare_antisym.
  destruct (String.compare (quarter a) (quarter b)); cbn; congruence.
Qed.

(** X19: the records are compared newest first: the sorted list is a
    permutation of the input in which a later record has no greater year
    and, within a year, no greater quarter label, records of one period
    keeping their input order.  The result is absent with fewer than two
    present revenues and when the second present revenue in that order is
    not positive, and present otherwise. *)
Theorem revenue_growth_order_and_absence :
  forall fundamental_data : list FundamentalRecord,
    Permutation (Py.sorted_desc period_ltb fundamental_data) fundamental_data
    /\ (forall i j a b,
          (i < j)%nat ->
          Py.sorted_desc period_ltb fundamental_data !! i = Some a ->
          Py.sorted_desc period_ltb fundamental_data !! j = Some b ->
          (year b <= year a)%Z
          /\ (year a = year b -> String.leb (quarter b) (quarter a) = true))
    /\ (forall y q,
          List.filter (same_period y q) (Py.sorted_desc period_ltb fundamental_data)
          = List.filter (same_period y q) fundamental_data)
    /\ ((length (omap revenue fundamental_data) < 2)%nat ->
        calculate_revenue_growth fundamental_data = None)
    /\ (forall current previous rest,
          omap revenue (Py.sorted_desc period_ltb fundamental_data)
          = current :: previous :: rest ->
          (previous <= 0 -> calculate_revenue_growth fundamental_data = None)
          /\ (0 < previous -> is_Some (calculate_revenue_growth fundamental_data))).
Proof.
  intros fd.
  pose proof (sorted_desc_perm period_ltb fd) as Hperm.
  split; [exact Hperm|]. split.
  { intros i j a b Hij Hi Hj. apply not_below_period.
    eapply (StronglySorted_lookup _ (Py.sorted_desc period_ltb fd) i j);
      [|exact Hij|exact Hi|exact Hj].
    apply sorted_desc_sorted; [exact period_ltb_asym | exact period_ltb_negtrans]. }
  split.
  { intros y q. apply sorted_desc_filter, same_period_not_below. }
  split.
  - intros Hfew. unfold calculate_revenue_growth.
    destruct (length fd <? 2)%nat; [reflexivity|].
    rewrite (Permutation_length (omap_Permutation revenue _ _ Hperm)).
    destruct (Nat.ltb_spec (length (omap revenue fd)) 2); [reflexivity|lia].
  - intros current previous rest Hrev.
    rewrite (revenue_growth_first_two _ _ _ _ Hrev). split; intros Hprev.
    + now rewrite (Qle_bool_true _ _ Hprev).
    + rewrite (Qle_bool_false _ _ Hprev). eauto.
Qed.

(** ** calculate_revenue_growth on doubles *)

Lemma period64_ltb_asym (a b : Float64.FundamentalRecord) :
  Float64.period_ltb a b = true -> Float64.period_ltb b a = false.
Proof.
  unfold Float64.period_ltb. intros H.
  apply orb_true_iff in H. apply orb_false_iff.
  destruct H as [H|H].
  - apply Z.ltb_lt in H. split; [apply Z.ltb_ge; lia|].
    apply andb_false_iff. left. apply Z.eqb_neq. lia.
  - apply andb_true_iff in H. destruct H as [Hy Hq]. apply Z.eqb_eq in Hy.
    split; [apply Z.ltb_ge; lia|].
    apply andb_false_iff. right. now apply string_ltb_asym.
Qed.

Lemma period64_ltb_negtrans (a b c : Float64.FundamentalRecord) :
  Float64.period_ltb a b = false -> Float64.period_ltb b c = false ->
  Float64.period_ltb a c = false.
Proof.
  unfold Float64.period_ltb. intros Hab Hbc.
  apply orb_false_iff in Hab, Hbc. destruct Hab as [Hab Hab'], Hbc as [Hbc Hbc'].
  apply Z.ltb_ge in Hab, Hbc. apply orb_false_iff. split; [apply Z.ltb_ge; lia|].
  destruct (Z.eqb_spec (Float64.year a) (Float64.year c)) as [Hac|]; [|reflexivity].
  cbn [andb].
  assert (Float64.year a = Float64.year b) as Eab by lia.
  assert (Float64.year b = Float64.year c) as Ebc by lia.
  rewrite Eab, Z.eqb_refl in Hab'. rewrite Ebc, Z.eqb_refl in Hbc'.
  cbn [andb] in Hab', Hbc'. eapply string_ltb_negtrans; eassumption.
Qed.

Lemma same_period64_not_below (y : Z) (q : string) (a b : Float64.FundamentalRecord) :
  Float64.same_period y q a = true -> Float64.same_period y q b = true ->
  Float64.period_ltb a b = false.
Proof.
  unfold Float64.same_period, Float64.period_ltb. intros Ha Hb.
  apply andb_true_iff in Ha, Hb. destruct Ha as [Hya Hqa], Hb as [Hyb Hqb].
  apply Z.eqb_eq in Hya, Hyb. apply String.eqb_eq in Hqa, Hqb.
  rewrite Hya, Hyb, Hqa, Hqb, Z.ltb_irrefl, Z.eqb_refl, string_ltb_irrefl.
  reflexivity.
Qed.

(** In the descending order a later record is not newer than an earlier one. *)
Lemma not_below_period64 (a b : Float64.FundamentalRecord) :
  Py.not_below Float64.period_ltb a b ->
  (Float64.year b <= Float64.year a)%Z
  /\ (Float64.year a = Float64.year b ->
      String.leb (Float64.quarter b) (Float64.quarter a) = true).
Proof.
  unfold Py.not_below, Float64.period_ltb. intros H.
  apply orb_false_iff in H. destruct H as [Hy Hq]. apply Z.ltb_ge in Hy.
  split; [exact Hy|]. intros E. rewrite E, Z.eqb_refl in Hq. cbn [andb] in Hq.
  unfold String.ltb in Hq. unfold String.leb.
  rewrite String.compare_antisym.
  destruct (String.compare (Float64.quarter a) (Float64.quarter b)); cbn; congruence.
Qed.

Lemma revenue_growth64_first_two (fd : list Float64.FundamentalRecord)
    (current previous : float) rest :
  omap Float64.revenue (Py.sorted_desc Float64.period_ltb fd)
  = current :: previous :: rest ->
  Float64.calculate_revenue_growth fd
  = if PrimFloat.leb previous 0 then None
    else Some (Float64.round2
                 (PrimFloat.mul (PrimFloat.div (PrimFloat.sub current previous) previous)
                    100)).
Proof.
  intros Hrev.
  assert (2 <= length fd)%nat as Hfd.
  { pose proof (omap_length_le Float64.revenue (Py.sorted_desc Float64.period_ltb fd)) as Hle.
    rewrite Hrev, (Permutation_length (sorted_desc_perm Float64.period_ltb fd)) in Hle.
    cbn in Hle. lia. }
  unfold Float64.calculate_revenue_growth.
  destruct (Nat.ltb_spec (length fd) 2); [lia|].
  rewrite Hrev. reflexivity.
Qed.

(** C4: the records are accepted in any order and compared newest first: the
    sorted list is a permutation of the input in which a later record has no
    greater year and, within a year, no greater quarter label, records of one
    period keeping their input order.  With fewer than two present revenues
    the result is absent.  Otherwise, with [current] and [previous] the first
    two present revenues in that order, the result is absent when
    [previous <= 0] and is else the double [(current - previous) / previous
    * 100], computed in double arithmetic, rounded to two decimals. *)
Theorem calculate_revenue_growth_contract :
  forall fundamental_data : list Float64.FundamentalRecord,
    Permutation (Py.sorted_desc Float64.period_ltb fundamental_data) fundamental_data
    /\ (forall i j a b,
          (i < j)%nat ->
          Py.sorted_desc Float64.period_ltb fundamental_data !! i = Some a ->
          Py.sorted_desc Float64.period_ltb fundamental_data !! j = Some b ->
          (Float64.year b <= Float64.year a)%Z
          /\ (Float64.year a = Float64.year b ->
              String.leb (Float64.quarter b) (Float64.quarter a) = true))
    /\ (forall y q,
          List.filter (Float64.same_period y q)
            (Py.sorted_desc Float64.period_ltb fundamental_data)
          = List.filter (Float64.same_period y q) fundamental_data)
    /\ ((length (omap Float64.revenue fundamental_data) < 2)%nat ->
        Float64.calculate_revenue_growth fundamental_data = None)
    /\ (forall current previous rest,
          omap Float64.revenue (Py.sorted_desc Float64.period_ltb fundamental_data)
          = current :: previous :: rest ->
          (PrimFloat.leb previous 0 = true ->
           Float64.calculate_revenue_growth fundamental_data = None)
          /\ (PrimFloat.leb previous 0 = false ->
              Float64.calculate_revenue_growth fundamental_data
              = Some (Float64.round2
                        (PrimFloat.mul
                           (PrimFloat.div (PrimFloat.sub current previous) previous)
                           100)))).
Proof.
  intros fd.
  pose proof (sorted_desc_perm Float64.period_ltb fd) as Hperm.
  split; [exact Hperm|]. split.
  { intros i j a b Hij Hi Hj. apply not_below_period64.
    eapply (StronglySorted_lookup _ (Py.sorted_desc Float64.period_ltb fd) i j);
      [|exact Hij|exact Hi|exact Hj].
    apply sorted_desc_sorted; [exact period64_ltb_asym | exact period64_ltb_negtrans]. }
  split.
  { intros y q. apply sorted_desc_filter, same_period64_not_below. }
  split.
  - intros Hfew. unfold Float64.calculate_revenue_growth.
    destruct (length fd <? 2)%nat; [reflexivity|].
    rewrite (Permutation_length (omap_Permutation Float64.revenue _ _ Hperm)).
    destruct (Nat.ltb_spec (length (omap Float64.revenue fd)) 2); [reflexivity|lia].
  - intros current previous rest Hrev.
    rewrite (revenue_growth64_first_two _ _ _ _ Hrev). split; intros Hprev.
    + now rewrite Hprev.
    + now rewrite Hprev.
Qed.

(** [round(x, 2)] on doubles: an exact tie goes to the even digit (0.125 to
    0.12, 0.375 to 0.38), a zero keeps its sign, an infinity is returned as
    it is. *)
Lemma round2_double_samples :
  Float64.round2 (PrimFloat.div 1 8) = PrimFloat.div 12 100
  /\ Float64.round2 (PrimFloat.div 3 8) = PrimFloat.div 38 100
  /\ Float64.round2 (PrimFloat.div (-1) 1000) = PrimFloat.neg_zero
  /\ Float64.round2 PrimFloat.infinity = PrimFloat.infinity.
Proof. vm_compute. repeat split. Qed.

(** [Examples.near_tie]: the double quotient 1999 / 20000 times 100 lies just
    below 9.995, and the growth returned is 9.99 where exact arithmetic
    rounds the tie 9.995 to 10. *)
Lemma revenue_growth_near_tie :
  Float64.calculate_revenue_growth Examples.near_tie = Some (PrimFloat.div 999 100)
  /\ Py.round2 ((21999 - 20000) / 20000 * 100) == 10.
Proof. split; vm_compute; reflexivity. Qed.

(** A revenue that grows beyond the range of the doubles: the growth is an
    infinity, and a revenue that is not a number gives a growth that is not
    one either. *)
Lemma revenue_growth_non_finite :
  Float64.calculate_revenue_growth
    [Examples.revenue_report "Q2" 2024 (Some (FloatOps.Z.ldexp 1 1023));
     Examples.revenue_report "Q1" 2024 (Some (FloatOps.Z.ldexp 1 (-1000)))]
  = Some PrimFloat.infinity
  /\ Float64.calculate_revenue_growth
       [Examples.revenue_report "Q2" 2024 (Some 110%float);
        Examples.revenue_report "Q1" 2024 (Some PrimFloat.nan)]
     = Some PrimFloat.nan.
Proof. split; vm_compute; reflexivity. Qed.

(** ** Instances on the sample inputs *)

(** [Examples.quarters]: revenue went from 100 to 110, the growth is not
    negative. *)
Lemma revenue_growth_sign_witness :
  exists g,
    calculate_revenue_growth Examples.quarters = Some g
    /\ (100 <= 110 -> 0 <= g /\ 20 <= revenue_growth_points (Some g))
    /\ (110 <= 100 -> g <= 0).
Proof.
  apply (revenue_growth_sign Examples.quarters 110 100 [95; 90]);
    [vm_compute; reflexivity | reflexivity].
Defined.

Lemma quarters_distinct (a b : FundamentalRecord) :
  In a Examples.quarters -> In b Examples.quarters ->
  year a = year b -> quarter a = quarter b -> a = b.
Proof.
  intros Ha Hb. vm_compute in Ha, Hb.
  destruct Ha as [<-|[<-|[<-|[<-|[]]]]]; destruct Hb as [<-|[<-|[<-|[<-|[]]]]];
    cbn; intros Hy Hq; first [reflexivity | discriminate].
Qed.

(** The growth of [Examples.quarters] is the same oldest first. *)
Lemma revenue_growth_order_independent_witness :
  calculate_revenue_growth Examples.quarters
  = calculate_revenue_growth (rev Examples.quarters).
Proof.
  apply (revenue_growth_order_independent Examples.quarters (rev Examples.quarters)
           quarters_distinct).
  apply Permutation_rev.
Defined.

(** Growth 3 against 12, no margin against 16, flag off against on. *)
Lemma ranking_score_monotone_witness :
  calculate_ranking_score (Some 3) {| avg_margin := None |} degraded
  <= calculate_ranking_score (Some 12) {| avg_margin := Some 16 |}
       {| ma_20 := None; ma_50 := None; ma_200 := None;
          price_vs_ma20 := None; price_vs_ma50 := None; price_vs_ma200 := None;
          ma50_rising := true |}.
Proof.
  apply (ranking_score_monotone (Some 3) (Some 12) None (Some 16)).
  - intros x [= <-]. exists 12. split; [reflexivity|]. apply Qle_bool_iff. reflexivity.
  - intros x H. discriminate H.
  - intros _. reflexivity.
Defined.

(** [Examples.quarters] on [Examples.rising_frame] is a STRONG BUY, with
    both fundamentals present. *)
Lemma strong_buy_needs_fundamentals_witness :
  exists r g m,
    analyze_stock "AAA" Examples.quarters Examples.rising_frame (Some 120) = Py.Ok r
    /\ revenue_growth_4q r = Some g /\ 0 <= g
    /\ avg_ebit_margin r = Some m /\ 10 <= m.
Proof.
  destruct (analyze_stock "AAA" Examples.quarters Examples.rising_frame (Some 120))
    as [r|e] eqn:E; [|vm_compute in E; discriminate E].
  destruct (strong_buy_needs_fundamentals _ _ _ _ r E)
    as (g & m & Hg & Hg0 & Hm & Hm10 & _).
  - pose proof E as E'. vm_compute in E'. injection E' as E'. rewrite <- E'.
    reflexivity.
  - exists r, g, m. auto.
Defined.

(** No record at all: SELL, whatever the frame. *)
Lemma no_fundamentals_sell_witness :
  exists r,
    analyze_stock "AAA" [] Examples.rising_frame (Some 120) = Py.Ok r
    /\ revenue_growth_4q r = None /\ avg_ebit_margin r = None
    /\ ranking_score r = (if res_ma50_rising r then 20 else 0)
    /\ recommendation r = "SELL".
Proof.
  apply (no_fundamentals_sell "AAA" [] Examples.rising_frame (Some 120));
    [cbn; lia | reflexivity].
Defined.

(** Ranking the ranked [Examples.batch] once more returns it unchanged. *)
Lemma rank_stocks_idempotent_witness :
  exists h' ranked,
    rank_stocks Examples.batch [1; 2; 3]%nat = Py.Ok (h', ranked)
    /\ rank_stocks h' ranked = Py.Ok (h', ranked).
Proof.
  destruct (rank_stocks_returns Examples.batch [1; 2; 3]%nat batch_scores)
    as (keyed & Hret & _).
  eexists _, _. split; [exact Hret|].
  apply (rank_stocks_idempotent Examples.batch _ [1; 2; 3]%nat _);
    [|exact Hret].
  apply (bool_decide_unpack _). vm_compute. exact I.
Defined.

(** The second record of [Examples.unscored_batch] has no score. *)
Lemma rank_stocks_missing_score_witness :
  rank_stocks Examples.unscored_batch [1; 2]%nat = Py.Raise Py.KeyError.
Proof.
  apply (rank_stocks_missing_score Examples.unscored_batch [1; 2]%nat 2%nat
           {[ "symbol" := VStr "BBB" ]}).
  - intros l' [<-|[<-|[]]].
    + left. vm_compute. eexists. reflexivity.
    + right. exists {[ "symbol" := VStr "BBB" ]}. split; reflexivity.
  - right. left. reflexivity.
  - reflexivity.
  - reflexivity.
Defined.

(** March 2024 comes before June 2024: "Q1" sorts below "Q2". *)
Lemma collector_periods_chronological_witness :
  period_ltb
    (Collector.build_record "Q1" 2024 None None None None None None None)
    (Collector.build_record "Q2" 2024 None None None None None None None)
  = true.
Proof.
  apply (collector_periods_chronological
           (Examples.quarter_end 2024 3 31) (Examples.quarter_end 2024 6 30));
    try reflexivity; cbn; lia.
Defined.

(** The frame computed from [Examples.history] has the three columns. *)
Lemma price_frame_averages_present_witness :
  exists out,
    Yahoo.get_daily_price_data Examples.history = Py.Ok out
    /\ has_ma_columns out = true.
Proof.
  destruct (price_frame_averages_present Examples.history)
    as (out & Hout & Hcols & _); [reflexivity | reflexivity |].
  exists out. auto.
Defined.

(** Ten days of history leave no row, and the analysis degrades. *)
Lemma price_frame_needs_200_days_witness :
  exists out,
    Yahoo.get_daily_price_data
      {| columns := ["Close"]; rows := repeat [CNum 100] 10 |} = Py.Ok out
    /\ rows out = []
    /\ analyze_technical_indicators out (Some 100) = Py.Ok degraded.
Proof.
  destruct (price_frame_needs_200_days
              {| columns := ["Close"]; rows := repeat [CNum 100] 10 |} (Some 100))
    as (out & Hout & _ & Hshort); [reflexivity | reflexivity |].
  exists out. split; [exact Hout|]. apply Hshort. cbn. lia.
Defined.

(** The analysis of the frame computed from [Examples.history] reports the
    three averages. *)
Lemma price_frame_analysis_witness :
  exists out ta a b c,
    Yahoo.get_daily_price_data Examples.history = Py.Ok out
    /\ analyze_technical_indicators out (Some 310) = Py.Ok ta
    /\ ma_20 ta = Some a /\ ma_50 ta = Some b /\ ma_200 ta = Some c.
Proof.
  destruct (Yahoo.get_daily_price_data Examples.history) as [out|e] eqn:E;
    [|vm_compute in E; discriminate E].
  destruct (price_frame_analysis Examples.history out 310 eq_refl eq_refl E)
    as (ta & Hta & _ & Hrows).
  destruct Hrows as (_ & a & b & c & Ha & Hb & Hc).
  - pose proof E as E'. vm_compute in E'. injection E' as E'. rewrite <- E'.
    discriminate.
  - exists out, ta, a, b, c. auto.
Defined.

(** The latest averages of [Examples.history] are the means of its last 20,
    50 and 200 closes. *)
Lemma latest_averages_are_trailing_means_witness :
  exists out,
    Yahoo.get_daily_price_data Examples.history = Py.Ok out
    /\ cell_from_end out 1 "MA_20"
       = Some (CNum (mean (Yahoo.trailing 20 Examples.history_close)))
    /\ cell_from_end out 1 "MA_50"
       = Some (CNum (mean (Yahoo.trailing 50 Examples.history_close)))
    /\ cell_from_end out 1 "MA_200"
       = Some (CNum (mean (Yahoo.trailing 200 Examples.history_close))).
Proof.
  apply (latest_averages_are_trailing_means Examples.history Examples.history_close);
    try reflexivity.
  cbn. lia.
Defined.

(** On [Examples.rising_frame] a price of 120 lies above the 50-day average
    of 110: the deviation is not negative. *)
Lemma price_deviation_sign_witness :
  exists ta d,
    analyze_technical_indicators Examples.rising_frame (Some 120) = Py.Ok ta
    /\ price_vs_ma50 ta = Some (Fin d) /\ 0 <= d.
Proof.
  destruct (analyze_technical_indicators Examples.rising_frame (Some 120))
    as [ta|e] eqn:E; [|vm_compute in E; discriminate E].
  destruct (price_deviation_sign Examples.rising_frame 120 ta eq_refl) as (_ & H50 & _);
    [cbn; lia | exact E |].
  destruct (H50 110 eq_refl eq_refl) as (d & Hd & Hpos & _); [discriminate|].
  exists ta, d. split; [reflexivity|]. split; [exact Hd|].
  apply Hpos. apply Qle_bool_iff. reflexivity.
Defined.

(** The statements of [Examples] carry no date twice: four records, newest
    first. *)
Lemma get_fundamental_data_shape_witness :
  length (Yahoo.get_fundamental_data Examples.income_statement Examples.balance_sheet)
  = 4%nat
  /\ map (fun r => (year r, quarter r))
        (Yahoo.get_fundamental_data Examples.income_statement Examples.balance_sheet)
     = [(2024%Z, "Q2"); (2024%Z, "Q1"); (2023%Z, "Q4"); (2023%Z, "Q3")].
Proof.
  refine (proj2 (proj2 (get_fundamental_data_shape
                          Examples.income_statement Examples.balance_sheet)) _ _ _);
    [reflexivity | |]; apply (bool_decide_unpack _); vm_compute; exact I.
Defined.

(** [Examples.repeated_statement] lists June 2024 twice and has a
    "Total Revenue" row: no record comes back. *)
Lemma get_fundamental_data_repeated_date_witness :
  Yahoo.get_fundamental_data Examples.repeated_statement Examples.balance_sheet = [].
Proof.
  apply (get_fundamental_data_repeated_date Examples.repeated_statement
           Examples.balance_sheet (Examples.quarter_end 2024 6 30)).
  - left. reflexivity.
  - cbn. lia.
  - apply (bool_decide_unpack _). vm_compute. exact I.
Defined.
